(** * matdata: a loader for MATLAB [.mat] files

    Shallow embedding of [matdata.py]: the legacy adapter [load_scipy], the
    hierarchical adapter [load_h5py] with its two local functions
    [_mat_to_dict] and [_simplify], and the facade class [MatData].

    Python values are modelled by the inductive type [pyobj], exceptions by
    the error monad [exc], calls of the two adapters by a trace of [call]
    events.  The two external readers ([h5py.File], [scipy.io.loadmat]), the
    file system and the iteration order of Python sets are parameters of the
    development (Section [Loader]). *)

From Stdlib Require Import ZArith Ascii String List Lia SpecFloat.
From stdpp Require Import base option list strings gmap.
From Equations Require Import Equations.

Set Warnings "-register-all".
Local Open Scope string_scope.
Local Open Scope nat_scope.
Local Open Scope list_scope.

(** ** Exceptions *)

(** The exception classes that occur in the module or can cross it.
    [KeyboardInterrupt] stands for the classes that derive from
    [BaseException] only: [except Exception] does not catch them. *)
Inductive exn_class :=
| BaseException
| Exception
| KeyboardInterrupt
| OSError
| FileNotFoundError
| TypeError
| ValueError
| AttributeError
| KeyError
| IndexError.

#[global] Instance exn_class_eq_dec : EqDecision exn_class.
Proof. solve_decision. Defined.

(** Method resolution order of a class, the class itself first. *)
Definition mro (c : exn_class) : list exn_class :=
  match c with
  | BaseException => [BaseException]
  | Exception => [Exception; BaseException]
  | KeyboardInterrupt => [KeyboardInterrupt; BaseException]
  | OSError => [OSError; Exception; BaseException]
  | FileNotFoundError => [FileNotFoundError; OSError; Exception; BaseException]
  | TypeError => [TypeError; Exception; BaseException]
  | ValueError => [ValueError; Exception; BaseException]
  | AttributeError => [AttributeError; Exception; BaseException]
  | KeyError => [KeyError; Exception; BaseException]
  | IndexError => [IndexError; Exception; BaseException]
  end.

Definition issubclass (c d : exn_class) : bool := bool_decide (d ∈ mro c).

(** An exception object: its class, its single argument and its
    [__cause__] (set by [raise ... from e]). *)
Inductive exn :=
| Exn (cls : exn_class) (arg : string) (cause : option exn).

Definition exn_cls (e : exn) : exn_class := let 'Exn c _ _ := e in c.
Definition exn_arg (e : exn) : string := let 'Exn _ a _ := e in a.
Definition exn_cause (e : exn) : option exn := let 'Exn _ _ c := e in c.

Definition isinstance (e : exn) (c : exn_class) : bool := issubclass (exn_cls e) c.

(** The result of evaluating a Python expression: a value or a raised
    exception. *)
Inductive exc (A : Type) :=
| Ok (a : A)
| Raise (e : exn).
Arguments Ok {A} a.
Arguments Raise {A} e.

#[global] Instance exc_ret : MRet exc := fun A a => Ok a.
#[global] Instance exc_bind : MBind exc := fun A B f m =>
  match m with
  | Ok a => f a
  | Raise e => Raise e
  end.
#[global] Instance exc_fmap : FMap exc := fun A B f m =>
  match m with
  | Ok a => Ok (f a)
  | Raise e => Raise e
  end.

(** Left-to-right evaluation of a comprehension body over a list: the first
    exception stops the loop. *)
Fixpoint exc_mapM {A B} (f : A -> exc B) (l : list A) : exc (list B) :=
  match l with
  | [] => Ok []
  | x :: l' =>
      match f x with
      | Raise e => Raise e
      | Ok y =>
          match exc_mapM f l' with
          | Raise e => Raise e
          | Ok ys => Ok (y :: ys)
          end
      end
  end.

(** ** numpy arrays *)

(** An [ndarray] is a strided view on a flat buffer, as in numpy: the element
    at index [(i0, ..., ik)] is [buffer[offset + i0*s0 + ... + ik*sk]].
    Strides count elements, not bytes.  [dtype_kind] is [dtype.kind], one
    character ("O" for arrays of Python objects). *)
Record ndarray (A : Type) := mk_ndarray {
  dtype_kind : ascii;
  shape : list nat;
  strides : list nat;
  offset : nat;
  buffer : list A
}.
Arguments mk_ndarray {A} _ _ _ _ _.
Arguments dtype_kind {A} _.
Arguments shape {A} _.
Arguments strides {A} _.
Arguments offset {A} _.
Arguments buffer {A} _.

Section Ndarray.
Context {A : Type}.

(** [a.ndim] *)
Definition ndim (a : ndarray A) : nat := length (shape a).

(** [a.size] *)
Definition size (a : ndarray A) : nat := fold_right Nat.mul 1 (shape a).

(** Position in the buffer of a multi-index, relative to the offset. *)
Fixpoint dot (idx strd : list nat) : nat :=
  match idx, strd with
  | i :: idx', s :: strd' => i * s + dot idx' strd'
  | _, _ => 0
  end.

(** [idx] is an index of an array of shape [shp]. *)
Definition valid_index (idx shp : list nat) : Prop := Forall2 lt idx shp.

(** [a[i0, ..., ik]] for a full multi-index. *)
Definition ndarray_at (a : ndarray A) (idx : list nat) : option A :=
  buffer a !! (offset a + dot idx (strides a)).

(** [a.T]: the view with the axes reversed. *)
Definition T (a : ndarray A) : ndarray A :=
  mk_ndarray (dtype_kind a) (rev (shape a)) (rev (strides a)) (offset a) (buffer a).

(** Axes kept by [np.squeeze]: those whose length is not 1. *)
Definition kept_axis {X} (p : nat * X) : bool := negb (fst p =? 1).

(** [np.squeeze(a)]: the view without the axes of length 1. *)
Definition np_squeeze (a : ndarray A) : ndarray A :=
  let axes := List.filter kept_axis (combine (shape a) (strides a)) in
  mk_ndarray (dtype_kind a) (map fst axes) (map snd axes) (offset a) (buffer a).

(** Strides of a C-contiguous array of the given shape. *)
Fixpoint c_strides (shp : list nat) : list nat :=
  match shp with
  | [] => []
  | _ :: shp' => fold_right Nat.mul 1 shp' :: c_strides shp'
  end.

(** A view is well formed when it has one stride per axis and every
    index of its shape falls inside the buffer. *)
Definition wf_ndarray (a : ndarray A) : Prop :=
  length (strides a) = length (shape a) /\
  forall idx, valid_index idx (shape a) -> is_Some (ndarray_at a idx).
End Ndarray.

(** Shape of [np.squeeze(a)] when [squeeze_me] is set, and the index in it
    of the element that has index [idx] in [a]. *)
Definition squeezed_shape (squeeze_me : bool) (shp : list nat) : list nat :=
  if squeeze_me then List.filter (fun n => negb (n =? 1)) shp else shp.

Definition squeezed_index (squeeze_me : bool) (shp idx : list nat) : list nat :=
  if squeeze_me then map snd (List.filter kept_axis (combine shp idx)) else idx.

(** ** Python values *)

(** Scalars: what [ndarray.item()] returns for a dataset element, and what
    an object array of a MATLAB file holds (numbers, strings, HDF5 object
    references). *)
Inductive scalar :=
| SInt (z : Z)
| SFloat (f : spec_float)
| SStr (s : string)
| SRef (target : string).

(** The normalized values: scalars, arrays, lists and dicts.  A dict is the
    list of its items in insertion order; an array of kind "O" holds
    arbitrary values. *)
Inductive pyobj :=
| PyScalar (x : scalar)
| PyArray (a : ndarray pyobj)
| PyList (items : list pyobj)
| PyDict (items : list (string * pyobj)).

Definition pydict := list (string * pyobj).

(** *** Dict operations *)

(** [d.keys()] *)
Definition dict_keys {V} (d : list (string * V)) : list string := map fst d.

(** [d[k]], [None] standing for the [KeyError]. *)
Fixpoint dict_get {V} (d : list (string * V)) (k : string) : option V :=
  match d with
  | [] => None
  | (k', v) :: d' => if String.eqb k k' then Some v else dict_get d' k
  end.

(** [d[k] = v]: an existing key keeps its position, a new key goes last. *)
Fixpoint dict_set {V} (d : list (string * V)) (k : string) (v : V) : list (string * V) :=
  match d with
  | [] => [(k, v)]
  | (k', v') :: d' =>
      if String.eqb k k' then (k, v) :: d' else (k', v') :: dict_set d' k v
  end.

(** The dict built by a comprehension whose body produced [items], in this
    order. *)
Definition dict_of_items {V} (items : list (string * V)) : list (string * V) :=
  fold_left (fun d kv => dict_set d (fst kv) (snd kv)) items [].

(** ** The hierarchical reader's tree *)

(** A node of an open HDF5 file: a dataset (element kind, stored shape,
    elements in storage order), a group (its links, in the store's iteration
    order) or an object of another h5py type, given by the name of its type
    (a committed datatype). *)
Inductive h5node :=
| Dataset (kind : ascii) (shp : list nat) (elems : list scalar)
| Group (links : list (string * h5node))
| OtherNode (type_name : string).

(** The whole dataset as a C-contiguous array (an array scalar when the
    dataset has no dimension). *)
Definition read_dataset (kind : ascii) (shp : list nat) (elems : list scalar) : ndarray pyobj :=
  mk_ndarray kind shp (c_strides shp) 0 (map PyScalar elems).

(** What [dataset[()]] returns: an array, or a Python object that is no
    array. *)
Inductive dataset_read :=
| ReadArray (a : ndarray pyobj)
| ReadObject (x : scalar).

(** [dataset[()]].  A dataset is read as the array [read_dataset], with one
    exception: a dataset without dimensions whose kind is "O" (a
    variable-length string, an object reference) is read as the bare Python
    object it holds. *)
Definition dataset_getitem (kind : ascii) (shp : list nat) (elems : list scalar) :
    dataset_read :=
  match shp, elems with
  | [], x :: _ =>
      if Ascii.eqb kind "O" then ReadObject x
      else ReadArray (read_dataset kind shp elems)
  | _, _ => ReadArray (read_dataset kind shp elems)
  end.

(** The name of the type of a scalar, as error messages print it. *)
Definition scalar_type_name (x : scalar) : string :=
  match x with
  | SInt _ => "int"
  | SFloat _ => "float"
  | SStr _ => "bytes"
  | SRef _ => "h5py.h5r.Reference"
  end.

(** [a.item()]: the single element of an array of size 1, as a Python
    object. *)
Definition item (a : ndarray pyobj) : exc pyobj :=
  if size a =? 1 then
    match ndarray_at a (map (fun _ => 0) (shape a)) with
    | Some x => Ok x
    | None => Raise (Exn IndexError "index out of bounds" None)
    end
  else Raise (Exn ValueError "can only convert an array of size 1 to a Python scalar" None).

(** ** load_h5py: the local function _mat_to_dict *)

(** The dataset branch up to the squeeze step: the array read from the
    dataset, transposed when it has more than one dimension, squeezed when
    [squeeze_me] is set. *)
Definition dataset_array (squeeze_me : bool) (kind : ascii) (shp : list nat)
    (elems : list scalar) : ndarray pyobj :=
  (* convert datasets to numpy arrays *)
  let data := read_dataset kind shp elems in
  (* transpose multi-dimensional arrays *)
  let data := if 1 <? ndim data then T data else data in
  (* mimic squeeze_me=True *)
  let data := if squeeze_me then np_squeeze data else data in
  data.

(** In the dataset branch, [data.ndim] raises when [mat_obj[()]] is no
    array; otherwise the branch goes on with [dataset_array].  In the group
    branch the comprehension runs over the links of the group: [mat_obj[key]]
    is the node linked under [key]. *)
Fixpoint _mat_to_dict (squeeze_me : bool) (mat_obj : h5node) : exc pyobj :=
  match mat_obj with
  | Dataset kind shp elems =>
      match dataset_getitem kind shp elems with
      | ReadObject x =>
          Raise (Exn AttributeError
                   ("'" +:+ scalar_type_name x +:+ "' object has no attribute 'ndim'") None)
      | ReadArray _ =>
          let data := dataset_array squeeze_me kind shp elems in
          (* convert single-element arrays to scalars *)
          if bool_decide (shape data = []) then item data else Ok (PyArray data)
      end
  | Group links =>
      (* convert groups to dictionaries *)
      items ← exc_mapM (fun kv => v ← _mat_to_dict squeeze_me (snd kv); Ok (fst kv, v)) links;
      Ok (PyDict (dict_of_items items))
  | OtherNode type_name =>
      Raise (Exn TypeError ("Unsupported MATLAB object type: " +:+ type_name) None)
  end.

(** ** load_h5py: the local function _simplify *)

(** [a[i]]: the [i]-th item along the first axis, an element of the buffer
    for a 1-d array and a sub-view for an array of more dimensions. *)
Definition ndarray_getitem (a : ndarray pyobj) (i : nat) : exc pyobj :=
  match shape a, strides a with
  | [_], s :: _ =>
      match buffer a !! (offset a + i * s) with
      | Some x => Ok x
      | None => Raise (Exn IndexError "index out of bounds" None)
      end
  | _ :: shp, s :: strd =>
      Ok (PyArray (mk_ndarray (dtype_kind a) shp strd (offset a + i * s) (buffer a)))
  | _, _ => Raise (Exn IndexError "too many indices for array" None)
  end.

(** The items produced by [for item in a]. *)
Definition ndarray_iter (a : ndarray pyobj) : exc (list pyobj) :=
  match shape a with
  | [] => Raise (Exn TypeError "iteration over a 0-d array" None)
  | n :: _ => exc_mapM (ndarray_getitem a) (seq 0 n)
  end.

(** Measure for the recursion of [_simplify]: an item of an array is either
    an element of its buffer or a view with one axis less. *)
Fixpoint pyobj_size (v : pyobj) : nat :=
  match v with
  | PyScalar _ => 1
  | PyArray a => S (length (shape a) + sum_list (map pyobj_size (buffer a)))
  | PyList items => S (sum_list (map pyobj_size items))
  | PyDict items => S (sum_list (map (fun kv => pyobj_size (snd kv)) items))
  end.

(** A comprehension whose body may use that its argument is in the list. *)
Fixpoint exc_mapM_in {A B} (l : list A) : (forall x, In x l -> exc B) -> exc (list B) :=
  match l with
  | [] => fun _ => Ok []
  | x :: l' => fun f =>
      match f x (or_introl eq_refl) with
      | Raise e => Raise e
      | Ok y =>
          match exc_mapM_in l' (fun x' H => f x' (or_intror H)) with
          | Raise e => Raise e
          | Ok ys => Ok (y :: ys)
          end
      end
  end.

Definition inspect {A} (a : A) : {b : A | a = b} := exist _ a eq_refl.

Lemma sum_list_In_le (A : Type) (f : A -> nat) (l : list A) (x : A) :
  In x l -> f x <= sum_list (map f l).
Proof.
  induction l as [|y l IH]; simpl; [tauto|].
  intros [->|H]; [lia|]. specialize (IH H). lia.
Qed.

Lemma exc_mapM_In_inv {A B} (f : A -> exc B) (l : list A) (ys : list B) (y : B) :
  exc_mapM f l = Ok ys -> In y ys -> exists x, In x l /\ f x = Ok y.
Proof.
  revert ys. induction l as [|x l IH]; simpl; intros ys.
  - intros [= <-] [].
  - destruct (f x) as [y0|] eqn:Hx; [|discriminate].
    destruct (exc_mapM f l) as [ys0|]; [|discriminate].
    intros [= <-] [->|Hin].
    + exists x. auto.
    + destruct (IH _ eq_refl Hin) as (x' & ? & ?). exists x'. auto.
Qed.

Lemma ndarray_getitem_size (a : ndarray pyobj) (i : nat) (v : pyobj) :
  ndarray_getitem a i = Ok v -> pyobj_size v < pyobj_size (PyArray a).
Proof.
  unfold ndarray_getitem. destruct a as [k shp strd off buf]; simpl.
  destruct shp as [|n [|m shp]]; destruct strd as [|s strd]; try discriminate.
  - destruct (buf !! (off + i * s)) as [x|] eqn:Hx; [|discriminate].
    intros [= <-].
    apply list_elem_of_lookup_2, list_elem_of_In in Hx.
    pose proof (sum_list_In_le _ pyobj_size buf x Hx). lia.
  - intros [= <-]. simpl. lia.
Qed.

Lemma ndarray_iter_size (a : ndarray pyobj) (items : list pyobj) (v : pyobj) :
  ndarray_iter a = Ok items -> In v items -> pyobj_size v < pyobj_size (PyArray a).
Proof.
  unfold ndarray_iter. destruct (shape a) as [|n shp] eqn:Hs; [discriminate|].
  intros Hm Hin. destruct (exc_mapM_In_inv _ _ _ _ Hm Hin) as (i & _ & Hi).
  eapply ndarray_getitem_size; eauto.
Qed.

Equations? _simplify (value : pyobj) : exc pyobj by wf (pyobj_size value) lt :=
  _simplify (PyArray a) with Ascii.eqb (dtype_kind a) "O" := {
    | true with inspect (ndarray_iter a) := {
        | exist _ (Ok items) Hiter =>
            PyList <$> exc_mapM_in items (fun item Hin => _simplify item)
        | exist _ (Raise e) _ => Raise e };
    | false => Ok (PyArray a) };
  _simplify (PyDict d) :=
    items ← exc_mapM_in d (fun kv Hin => v ← _simplify (snd kv); Ok (fst kv, v));
    Ok (PyDict (dict_of_items items));
  _simplify value := Ok value.
Proof.
  - eapply ndarray_iter_size; eauto.
  - match goal with H : In (_, ?p) ?d |- _ =>
      pose proof (sum_list_In_le _ (fun kv => pyobj_size (snd kv)) d _ H)
    end.
    simpl in *. lia.
Qed.

(** ** Predicates on trees and values *)

(** A tree as the reader yields it: a dataset has one element per index of
    its shape, the links of a group have distinct names. *)
Fixpoint wf_tree (n : h5node) : bool :=
  match n with
  | Dataset _ shp elems => length elems =? fold_right Nat.mul 1 shp
  | Group links =>
      bool_decide (NoDup (map fst links)) && forallb (fun kv => wf_tree (snd kv)) links
  | OtherNode _ => true
  end.

(** The errors of the nodes on which the conversion stops, in the order in
    which the tree is walked: a dataset that is not read as an array, a node
    that is neither a dataset nor a group. *)
Fixpoint walk_errors (n : h5node) : list exn :=
  match n with
  | Dataset kind shp elems =>
      match dataset_getitem kind shp elems with
      | ReadObject x =>
          [Exn AttributeError
             ("'" +:+ scalar_type_name x +:+ "' object has no attribute 'ndim'") None]
      | ReadArray _ => []
      end
  | Group links => flat_map (fun kv => walk_errors (snd kv)) links
  | OtherNode type_name =>
      [Exn TypeError ("Unsupported MATLAB object type: " +:+ type_name) None]
  end.

(** The value has the form of the tree: a dict for a group, with the names
    of the links as keys, in their order, each value of the form of the node
    linked; a scalar or an array for a dataset. *)
Fixpoint same_keys (n : h5node) (v : pyobj) {struct n} : Prop :=
  match n, v with
  | Group links, PyDict d =>
      (fix go (links : list (string * h5node)) (d : pydict) : Prop :=
         match links, d with
         | [], [] => True
         | (k, c) :: links', (k', v') :: d' => k' = k /\ same_keys c v' /\ go links' d'
         | _, _ => False
         end) links d
  | Dataset _ _ _, (PyScalar _ | PyArray _) => True
  | _, _ => False
  end.

Definition is_scalar (v : pyobj) : Prop :=
  match v with PyScalar _ => True | _ => False end.

(** The shape of a value converted from a tree: scalars, arrays that are
    well-formed views on scalars with at least one axis (and, under squeeze,
    no axis of length 1), dicts with distinct keys of such values; no
    lists. *)
Fixpoint h5_value (squeeze_me : bool) (v : pyobj) : Prop :=
  match v with
  | PyScalar _ => True
  | PyArray a =>
      shape a <> [] /\
      (squeeze_me = true -> Forall (fun n => n <> 1) (shape a)) /\
      wf_ndarray a /\
      Forall is_scalar (buffer a)
  | PyList _ => False
  | PyDict d =>
      List.NoDup (dict_keys d) /\
      fold_right (fun kv rest => h5_value squeeze_me (snd kv) /\ rest) True d
  end.

(** No array of kind "O" at the top, in a list or under a key, at any
    depth. *)
Fixpoint cell_free (v : pyobj) : bool :=
  match v with
  | PyScalar _ => true
  | PyArray a => negb (Ascii.eqb (dtype_kind a) "O")
  | PyList items => forallb cell_free items
  | PyDict d => forallb (fun kv => cell_free (snd kv)) d
  end.

(** A value the simplification pass has nothing to do on: no object array
    at the top or under a key of a dict (with distinct keys), at any depth
    of dicts.  Lists are not looked into. *)
Fixpoint no_cells (v : pyobj) : bool :=
  match v with
  | PyScalar _ => true
  | PyArray a => negb (Ascii.eqb (dtype_kind a) "O")
  | PyList _ => true
  | PyDict d =>
      bool_decide (NoDup (map fst d)) && forallb (fun kv => no_cells (snd kv)) d
  end.

(** ** Arguments of the facade *)

(** The [mat_file] argument (annotated [os.PathLike]): a [pathlib.Path], or
    an object that [Path(...)] accepts but that has no [exists] method, a
    [pathlib.PurePath] or a [str]. *)
Inductive path_arg :=
| PathObj (p : string)
| PurePathObj (p : string)
| StrObj (p : string).

(** [str(mat_file)], also the path the readers open. *)
Definition fspath (mat_file : path_arg) : string :=
  match mat_file with
  | PathObj p | PurePathObj p | StrObj p => p
  end.

(** [type(mat_file).__name__] *)
Definition path_type_name (mat_file : path_arg) : string :=
  match mat_file with
  | PathObj _ => "PosixPath"
  | PurePathObj _ => "PurePosixPath"
  | StrObj _ => "str"
  end.

(** The [version] argument: a Python [int] or [float]. *)
Inductive pynum :=
| PyInt (z : Z)
| PyFloat (f : spec_float).

(** The literal [7.2]: the double 0x1.ccccccccccccdp+2. *)
Definition f7_2 : spec_float := S754_finite false 8106479329266893 (-50).

(** [bool(version)] *)
Definition num_truthy (v : pynum) : bool :=
  match v with
  | PyInt z => negb (z =? 0)%Z
  | PyFloat f => negb (SFeqb f (S754_zero false))
  end.

(** [version <= 7.2]; an [int] is compared with the exact value of the
    double, 8106479329266893 / 2^50. *)
Definition num_le_7_2 (v : pynum) : bool :=
  match v with
  | PyInt z => (z * 2 ^ 50 <=? 8106479329266893)%Z
  | PyFloat f => SFleb f f7_2
  end.

(** [7.2 < version], the claim's "v > 7.2". *)
Definition num_gt_7_2 (v : pynum) : bool :=
  match v with
  | PyInt z => (8106479329266893 <? z * 2 ^ 50)%Z
  | PyFloat f => SFltb f7_2 f
  end.

(** [bool(variable_names)]: false for [None] and for an empty sequence. *)
Definition names_truthy (variable_names : option (list string)) : bool :=
  match variable_names with
  | None | Some [] => false
  | Some (_ :: _) => true
  end.

(** ** Calls of the adapters *)

Inductive adapter := load_scipy_fn | load_h5py_fn.

(** One call of an adapter, with the value of each of its four parameters. *)
Record call := mk_call {
  callee : adapter;
  call_mat_file : path_arg;
  call_variable_names : option (list string);
  call_squeeze_me : bool;
  call_simplify_cells : bool
}.

(** A computation of the facade: the adapter calls it made, in order, and
    its result. *)
Record io (A : Type) := IO { trace : list call; outcome : exc A }.
Arguments IO {A} _ _.
Arguments trace {A} _.
Arguments outcome {A} _.

#[global] Instance io_ret : MRet io := fun A a => IO [] (Ok a).
#[global] Instance io_bind : MBind io := fun A B f m =>
  match outcome m with
  | Ok a => IO (trace m ++ trace (f a)) (outcome (f a))
  | Raise e => IO (trace m) (Raise e)
  end.

Definition io_lift {A} (r : exc A) : io A := IO [] r.

(** [try: body / except cls as e: handler(e)] *)
Definition io_try {A} (body : io A) (cls : exn_class) (handler : exn -> io A) : io A :=
  match outcome body with
  | Ok a => body
  | Raise e =>
      if isinstance e cls
      then IO (trace body ++ trace (handler e)) (outcome (handler e))
      else body
  end.

(** The facade object: [self.mat_file] and [self.data]. *)
Record MatData := mk_MatData {
  mat_file : string;
  data : pyobj
}.

(** *** Operations on a value used as a dict *)

(** [obj.keys()] *)
Definition py_keys (obj : pyobj) : exc (list string) :=
  match obj with
  | PyDict d => Ok (dict_keys d)
  | _ => Raise (Exn AttributeError "object has no attribute 'keys'" None)
  end.

(** [obj[key]] for a string key *)
Definition py_getitem (obj : pyobj) (key : string) : exc pyobj :=
  match obj with
  | PyDict d =>
      match dict_get d key with
      | Some v => Ok v
      | None => Raise (Exn KeyError key None)
      end
  | _ => Raise (Exn TypeError "indices must be integers" None)
  end.

(** [key in obj] for a string key; only dicts are stored in a [MatData]. *)
Definition py_contains (obj : pyobj) (key : string) : exc bool :=
  match obj with
  | PyDict d => Ok (bool_decide (is_Some (dict_get d key)))
  | _ => Raise (Exn TypeError "argument is not a dict" None)
  end.

(** ** The module, over its environment *)

Section Loader.

Set Default Proof Using "Type".

(** [Path.exists]: the state of the file system. *)
Variable path_exists : string -> bool.

(** [h5py.File(mat_file, 'r')]: the links of the root group in the store's
    iteration order, or the exception raised on opening (an [OSError] when
    the file is not an HDF5 container). *)
Variable h5py_File : string -> exc (list (string * h5node)).

(** [scipy.io.loadmat(mat_file, variable_names=..., squeeze_me=...,
    simplify_cells=...)], which returns a dict. *)
Variable sio_loadmat :
  string -> option (list string) -> bool -> bool -> exc pydict.

(** [str(e)] for an exception [e]. *)
Variable exn_str : exn -> string.

(** The order in which Python iterates the set [set(xs) & set(ys)]: some
    enumeration of the strings that are in both sequences.  It is fixed by
    the interpreter's hashing and by the order in which the two sets were
    filled, so it is a function of the two sequences, not of the set. *)
Variable iter_set : list string -> list string -> list string.

(** The legacy adapter: a pass-through to [loadmat] (the facade passes no
    further keyword arguments). *)
Definition load_scipy (mat_file : path_arg) (variable_names : option (list string))
    (squeeze_me simplify_cells : bool) : exc pyobj :=
  PyDict <$> sio_loadmat (fspath mat_file) variable_names squeeze_me simplify_cells.

(** The last step of [load_h5py]: the loaded dict restricted to the requested
    names, when there are any. *)
Definition filter_step (variable_names : option (list string)) (data : pyobj) : exc pyobj :=
  (* intersect the dictionary keys with the variable_names *)
  if names_truthy variable_names then
    keys ← py_keys data;
    (* the set [variables], as the sequence in which the comprehension
       iterates it *)
    let variables := iter_set keys (default [] variable_names) in
    items ← exc_mapM (fun var => v ← py_getitem data var; Ok (var, v)) variables;
    Ok (PyDict (dict_of_items items))
  else Ok data.

(** The hierarchical adapter.  The file is open while the body runs. *)
Definition load_h5py (mat_file : path_arg) (variable_names : option (list string))
    (squeeze_me simplify_cells : bool) : exc pyobj :=
  mat ← h5py_File (fspath mat_file);
  (* load the data as a dictionary *)
  items ← exc_mapM (fun kv => v ← _mat_to_dict squeeze_me (snd kv); Ok (fst kv, v)) mat;
  let data := PyDict (dict_of_items items) in
  (* simplify cells to lists *)
  data ← (if simplify_cells then _simplify data else Ok data);
  filter_step variable_names data.

(** Default values of the parameters [squeeze_me] and [simplify_cells] in
    the signature of each adapter. *)
Definition default_squeeze_me (f : adapter) : bool :=
  match f with load_scipy_fn => true | load_h5py_fn => true end.
Definition default_simplify_cells (f : adapter) : bool :=
  match f with load_scipy_fn => true | load_h5py_fn => true end.

Definition adapter_body (f : adapter) :
    path_arg -> option (list string) -> bool -> bool -> exc pyobj :=
  match f with load_scipy_fn => load_scipy | load_h5py_fn => load_h5py end.

(** The call [f(mat_file, variable_names)] with two positional arguments:
    the other two parameters take their defaults. *)
Definition call2 (f : adapter) (mat_file : path_arg)
    (variable_names : option (list string)) : io pyobj :=
  let squeeze_me := default_squeeze_me f in
  let simplify_cells := default_simplify_cells f in
  IO [mk_call f mat_file variable_names squeeze_me simplify_cells]
     (adapter_body f mat_file variable_names squeeze_me simplify_cells).

(** [mat_file.exists()], called on the argument as it was passed. *)
Definition arg_exists (mat_file : path_arg) : exc bool :=
  match mat_file with
  | PathObj p => Ok (path_exists p)
  | _ => Raise (Exn AttributeError
           ("'" +:+ path_type_name mat_file +:+ "' object has no attribute 'exists'") None)
  end.

(** [raise Exception(f"Error loading mat file: {e}") from e] *)
Definition load_error (e : exn) : exn :=
  Exn Exception ("Error loading mat file: " +:+ exn_str e) (Some e).

(** The load method set from the reported version, [None] when
    [if version:] fails: for no version and for a version equal to 0. *)
Definition select_load_method (version : option pynum) : option adapter :=
  match version with
  | Some v =>
      if num_truthy v
      then Some (if num_le_7_2 v then load_scipy_fn else load_h5py_fn)
      else None
  | None => None
  end.

(** [MatData.__init__] *)
Definition MatData_init (mat_file : path_arg) (variable_names : option (list string))
    (version : option pynum) : io MatData :=
  let self_mat_file := fspath mat_file in
  found ← io_lift (arg_exists mat_file);
  if negb found then
    io_lift (Raise (Exn FileNotFoundError ("File '" +:+ fspath mat_file +:+ "' not found") None))
  else
    (* set the load method based on the reported version, if reported *)
    let load_method := select_load_method version in
    (* attempt to load mat file *)
    match load_method with
    | Some f =>
        io_try (d ← call2 f mat_file variable_names; mret (mk_MatData self_mat_file d))
          Exception (fun e => io_lift (Raise (load_error e)))
    | None =>
        io_try (d ← call2 load_h5py_fn mat_file variable_names;
                mret (mk_MatData self_mat_file d))
          OSError (fun _ =>
            io_try (d ← call2 load_scipy_fn mat_file variable_names;
                    mret (mk_MatData self_mat_file d))
              Exception (fun e => io_lift (Raise (load_error e))))
    end.

(** [MatData.get_file] *)
Definition get_file (self : MatData) : string := mat_file self.

(** [MatData.get] *)
Definition get (self : MatData) (var : string) : exc pyobj :=
  present ← py_contains (data self) var;
  if negb present then
    Raise (Exn KeyError ("Variable '" +:+ var +:+ "' not found in data") None)
  else py_getitem (data self) var.

(** [MatData.get_keys] *)
Definition get_keys (self : MatData) : exc (list string) := py_keys (data self).

(** *** Shorthands for the statements *)

(** The two calls [__init__] can make. *)
Definition h5py_call mat_file variable_names : call :=
  mk_call load_h5py_fn mat_file variable_names true true.
Definition scipy_call mat_file variable_names : call :=
  mk_call load_scipy_fn mat_file variable_names true true.

(** The result of the [try] around one adapter call in [__init__]. *)
Definition wrapped (mat_file : path_arg) (r : exc pyobj) : exc MatData :=
  match r with
  | Ok d => Ok (mk_MatData (fspath mat_file) d)
  | Raise e => if isinstance e Exception then Raise (load_error e) else Raise e
  end.

(** The names of the root group that are requested, in the store's
    order. *)
Definition requested_in_store_order (names : list string) (mat : list (string * h5node)) :
    list string :=
  List.filter (fun k => bool_decide (k ∈ names)) (dict_keys mat).

(** ** Facts on the error monad and on dicts *)

Lemma exc_mapM_in_eq {A B} (f : A -> exc B) (l : list A) :
  exc_mapM_in l (fun x _ => f x) = exc_mapM f l.
Proof.
  induction l as [|x l IH]; simpl; [reflexivity|].
  destruct (f x); [|reflexivity]. now rewrite IH.
Qed.

Lemma exc_mapM_length {A B} (f : A -> exc B) (l : list A) (ys : list B) :
  exc_mapM f l = Ok ys -> length ys = length l.
Proof.
  revert ys. induction l as [|x l IH]; simpl; intros ys.
  - now intros [= <-].
  - destruct (f x); [|discriminate]. destruct (exc_mapM f l); [|discriminate].
    intros [= <-]. simpl. f_equal. now apply IH.
Qed.

(** A comprehension returns a list exactly when its body returns on each
    element, and then the results are in the order of the elements. *)
Lemma exc_mapM_Forall2 {A B} (f : A -> exc B) (l : list A) (ys : list B) :
  exc_mapM f l = Ok ys <-> Forall2 (fun x y => f x = Ok y) l ys.
Proof.
  revert ys. induction l as [|x l IH]; simpl; intros ys.
  - split.
    + intros [= <-]. constructor.
    + intros H. inversion H. reflexivity.
  - split.
    + destruct (f x) as [y|] eqn:Hx; [|discriminate].
      destruct (exc_mapM f l) as [ys'|] eqn:Hl; [|discriminate].
      intros [= <-]. constructor; [assumption|]. now apply IH.
    + intros H. inversion H as [|? y ? ys' Hx Hl]; subst.
      rewrite Hx. apply IH in Hl. now rewrite Hl.
Qed.

Lemma dict_set_fresh {V} (d : list (string * V)) k v :
  ~ In k (dict_keys d) -> dict_set d k v = d ++ [(k, v)].
Proof.
  induction d as [|[k' v'] d IH]; simpl; intros H; [reflexivity|].
  destruct (String.eqb_spec k k') as [->|Hne]; [contradict H; now left|].
  rewrite IH by (contradict H; now right). reflexivity.
Qed.

Lemma fold_dict_set_nodup {V} (items acc : list (string * V)) :
  List.NoDup (dict_keys (acc ++ items)) ->
  fold_left (fun d kv => dict_set d (fst kv) (snd kv)) items acc = acc ++ items.
Proof.
  revert acc. induction items as [|[k v] items IH]; intros acc H; simpl.
  - now rewrite app_nil_r.
  - rewrite dict_set_fresh.
    + rewrite IH; rewrite <- app_assoc; [reflexivity|exact H].
    + unfold dict_keys in *. rewrite map_app in H. simpl in H.
      apply NoDup_remove_2 in H. intros Hin. apply H.
      apply in_or_app. now left.
Qed.

(** A comprehension over distinct keys builds the dict of its items, in
    their order. *)
Lemma dict_of_items_nodup {V} (items : list (string * V)) :
  List.NoDup (dict_keys items) -> dict_of_items items = items.
Proof. intros H. apply (fold_dict_set_nodup items []). exact H. Qed.

(** ** Facts on array views *)

Lemma dot_app (i1 i2 s1 s2 : list nat) :
  length i1 = length s1 -> dot (i1 ++ i2) (s1 ++ s2) = dot i1 s1 + dot i2 s2.
Proof.
  revert s1. induction i1 as [|i i1 IH]; intros [|s s1] H; simpl in *; try discriminate.
  - reflexivity.
  - rewrite IH by lia. lia.
Qed.

Lemma dot_rev (idx strd : list nat) :
  length idx = length strd -> dot (rev idx) (rev strd) = dot idx strd.
Proof.
  revert strd. induction idx as [|i idx IH]; intros [|s strd] H; simpl in *; try discriminate.
  - reflexivity.
  - rewrite dot_app by (rewrite !length_rev; lia).
    rewrite IH by lia. simpl. lia.
Qed.

Lemma length_c_strides (shp : list nat) : length (c_strides shp) = length shp.
Proof. induction shp; simpl; congruence. Qed.

(** In a C-contiguous array every index of the shape addresses an element
    of the buffer. *)
Lemma dot_c_strides_lt (idx shp : list nat) :
  valid_index idx shp -> dot idx (c_strides shp) < fold_right Nat.mul 1 shp.
Proof.
  induction 1 as [|i n idx shp Hi _ IH]; simpl; [lia|].
  set (p := fold_right Nat.mul 1 shp) in *.
  assert (i * p + p <= n * p) by nia. lia.
Qed.

Lemma squeeze_axes_shape {X} (shp : list nat) (l : list X) :
  length l = length shp ->
  map fst (List.filter kept_axis (combine shp l)) = squeezed_shape true shp.
Proof.
  revert l. induction shp as [|n shp IH]; intros [|x l] H; simpl in *; try discriminate.
  - reflexivity.
  - assert (Hk : kept_axis (n, x) = negb (n =? 1)) by reflexivity.
    rewrite Hk. destruct (n =? 1); simpl; rewrite IH by lia; reflexivity.
Qed.

(** The axes dropped by [np.squeeze] have length 1: an index is 0 there
    and addresses the same element without them. *)
Lemma squeeze_axes_dot (shp idx strd : list nat) :
  valid_index idx shp -> length strd = length shp ->
  dot (map snd (List.filter kept_axis (combine shp idx)))
      (map snd (List.filter kept_axis (combine shp strd))) = dot idx strd.
Proof.
  intros H. revert strd.
  induction H as [|i n idx shp Hi _ IH]; intros [|s strd] Hl; simpl in *; try discriminate.
  - reflexivity.
  - assert (Hk : forall X (x : X), kept_axis (n, x) = negb (n =? 1)) by reflexivity.
    rewrite !Hk. destruct (Nat.eqb_spec n 1) as [->|Hn]; simpl.
    + rewrite IH by lia. assert (i = 0) as -> by lia. lia.
    + rewrite IH by lia. reflexivity.
Qed.

Lemma squeezed_shape_rev (squeeze_me : bool) (shp : list nat) :
  squeezed_shape squeeze_me (rev shp) = rev (squeezed_shape squeeze_me shp).
Proof. destruct squeeze_me; simpl; [apply filter_rev|reflexivity]. Qed.

Lemma valid_index_rev (idx shp : list nat) :
  valid_index idx shp -> valid_index (rev idx) (rev shp).
Proof.
  unfold valid_index. intros H. apply Forall2_reverse in H.
  unfold reverse in H. now rewrite <- !rev_alt in H.
Qed.

Lemma squeezed_shape_nil_prod (squeeze_me : bool) (shp : list nat) :
  squeezed_shape squeeze_me shp = [] -> fold_right Nat.mul 1 shp = 1.
Proof.
  destruct squeeze_me; simpl; [|now intros ->].
  induction shp as [|n shp IH]; simpl; [reflexivity|].
  destruct (Nat.eqb_spec n 1) as [->|]; simpl; [|discriminate].
  intros H. rewrite IH by assumption. reflexivity.
Qed.

(** Shape of the array a dataset is converted to, and where each stored
    element is found in it. *)
Lemma dataset_array_shape (squeeze_me : bool) kind (shp : list nat) elems :
  shape (dataset_array squeeze_me kind shp elems) =
  squeezed_shape squeeze_me (if 1 <? length shp then rev shp else shp).
Proof.
  unfold dataset_array, ndim. simpl.
  destruct (1 <? length shp); destruct squeeze_me; simpl; try reflexivity.
  - apply squeeze_axes_shape. rewrite !length_rev. apply length_c_strides.
  - apply squeeze_axes_shape. apply length_c_strides.
Qed.

Lemma dataset_array_at (squeeze_me : bool) kind (shp : list nat) elems (idx : list nat) :
  valid_index idx shp ->
  let order := if 1 <? length shp then @rev nat else fun l => l in
  ndarray_at (dataset_array squeeze_me kind shp elems)
    (squeezed_index squeeze_me (order shp) (order idx)) =
  ndarray_at (read_dataset kind shp elems) idx.
Proof.
  intros Hv. pose proof (Forall2_length _ _ _ Hv) as Hlen.
  pose proof (length_c_strides shp) as Hc.
  unfold dataset_array, ndarray_at, ndim. simpl.
  destruct (1 <? length shp); destruct squeeze_me; simpl; try reflexivity;
    apply (f_equal (fun n => map PyScalar elems !! n)).
  - rewrite squeeze_axes_dot.
    + apply dot_rev. lia.
    + now apply valid_index_rev.
    + rewrite !length_rev. lia.
  - apply dot_rev. lia.
  - now apply squeeze_axes_dot.
Qed.

Lemma read_dataset_at (kind : ascii) (shp : list nat) elems (idx : list nat) :
  length elems = fold_right Nat.mul 1 shp -> valid_index idx shp ->
  exists x, elems !! dot idx (c_strides shp) = Some x /\
            ndarray_at (read_dataset kind shp elems) idx = Some (PyScalar x).
Proof.
  intros Hl Hv. pose proof (dot_c_strides_lt _ _ Hv) as Hlt.
  destruct (lookup_lt_is_Some_2 elems (dot idx (c_strides shp))) as [x Hx]; [lia|].
  exists x. split; [exact Hx|].
  unfold ndarray_at, read_dataset. simpl. rewrite list_lookup_fmap, Hx. reflexivity.
Qed.

(** ** The dataset branch of _mat_to_dict *)

Lemma dataset_array_buffer (squeeze_me : bool) kind (shp : list nat) elems :
  offset (dataset_array squeeze_me kind shp elems) = 0 /\
  buffer (dataset_array squeeze_me kind shp elems) = map PyScalar elems /\
  dtype_kind (dataset_array squeeze_me kind shp elems) = kind.
Proof.
  unfold dataset_array, ndim. simpl.
  destruct (1 <? length shp); destruct squeeze_me; simpl; auto.
Qed.

(** A dataset with a dimension, or of another kind than "O", is read as an
    array. *)
Lemma dataset_getitem_array (kind : ascii) (shp : list nat) elems :
  shp <> [] \/ kind <> "O"%char ->
  dataset_getitem kind shp elems = ReadArray (read_dataset kind shp elems).
Proof.
  unfold dataset_getitem. intros [H|H].
  - destruct shp; [contradiction|reflexivity].
  - destruct shp; [|reflexivity]. destruct elems; [reflexivity|].
    now destruct (Ascii.eqb_spec kind "O").
Qed.

Lemma dataset_array_shape_nil (squeeze_me : bool) kind elems :
  shape (dataset_array squeeze_me kind [] elems) = [].
Proof. now destruct squeeze_me. Qed.

(** C3, as amended.  A dataset of more than one dimension is returned
    transposed: the dimensions of the returned array are the stored
    dimensions in reverse order, without the dimensions of size 1 when
    squeeze is on (the exact reverse of the stored shape when squeeze is
    off), and the element stored at index [idx] is found at the reversed
    index.  A dataset of one or zero dimensions is not transposed.  Unless
    its shape is empty, this array is the value returned. *)
Theorem dataset_transposed_then_squeezed (squeeze_me : bool) kind shp elems :
  length elems = fold_right Nat.mul 1 shp ->
  let stored := read_dataset kind shp elems in
  let data := dataset_array squeeze_me kind shp elems in
  (1 < ndim stored ->
     shape data = rev (squeezed_shape squeeze_me shp) /\
     forall idx, valid_index idx shp ->
       is_Some (ndarray_at stored idx) /\
       ndarray_at data (squeezed_index squeeze_me (rev shp) (rev idx)) =
       ndarray_at stored idx) /\
  (ndim stored <= 1 ->
     shape data = squeezed_shape squeeze_me shp /\
     forall idx, valid_index idx shp ->
       is_Some (ndarray_at stored idx) /\
       ndarray_at data (squeezed_index squeeze_me shp idx) = ndarray_at stored idx) /\
  (shape data <> [] ->
     _mat_to_dict squeeze_me (Dataset kind shp elems) = Ok (PyArray data)).
Proof.
  intros Hlen stored data. unfold ndim, stored. simpl.
  pose proof (dataset_array_shape squeeze_me kind shp elems) as Hs.
  pose proof (dataset_array_at squeeze_me kind shp elems) as Hat.
  split; [|split].
  - intros Hn. apply Nat.ltb_lt in Hn. rewrite Hn in Hs, Hat.
    split; [now rewrite <- squeezed_shape_rev|].
    intros idx Hv. split.
    + destruct (read_dataset_at kind shp elems idx Hlen Hv) as (x & _ & ->). eauto.
    + apply (Hat idx Hv).
  - intros Hn. apply Nat.ltb_ge in Hn. rewrite Hn in Hs, Hat.
    split; [exact Hs|].
    intros idx Hv. split.
    + destruct (read_dataset_at kind shp elems idx Hlen Hv) as (x & _ & ->). eauto.
    + apply (Hat idx Hv).
  - intros Hne. rewrite dataset_getitem_array.
    + fold data. rewrite bool_decide_eq_false_2 by exact Hne. reflexivity.
    + left. intros ->. apply Hne. apply dataset_array_shape_nil.
Qed.

(** C4 (where the code departs from the claim).  A dataset without
    dimensions of kind "O" (a scalar variable-length string, a scalar object
    reference) is well formed and its shape is empty, with or without the
    squeeze step, yet it is not converted to a bare scalar: [mat_obj[()]] is
    the bare Python object, and [data.ndim] raises [AttributeError] before
    the squeeze and collapse steps are reached. *)
Theorem object_scalar_dataset_has_no_ndim (squeeze_me : bool) (x : scalar) :
  wf_tree (Dataset "O" [] [x]) = true /\
  squeezed_shape squeeze_me [] = [] /\
  _mat_to_dict squeeze_me (Dataset "O" [] [x]) =
  Raise (Exn AttributeError
           ("'" +:+ scalar_type_name x +:+ "' object has no attribute 'ndim'") None).
Proof. split; [reflexivity|]. split; [now destruct squeeze_me|reflexivity]. Qed.

(** X15.  For a dataset that is read as an array: when the shape left by
    the squeeze step is empty, the dataset holds a single element and
    [_mat_to_dict] returns that element as a bare scalar, not an array. *)
Theorem dataset_empty_shape_gives_scalar (squeeze_me : bool) kind shp elems :
  dataset_getitem kind shp elems = ReadArray (read_dataset kind shp elems) ->
  length elems = fold_right Nat.mul 1 shp ->
  shape (dataset_array squeeze_me kind shp elems) = [] ->
  exists x, elems = [x] /\
    _mat_to_dict squeeze_me (Dataset kind shp elems) = Ok (PyScalar x).
Proof.
  intros Harr Hlen Hnil.
  assert (Hprod : fold_right Nat.mul 1 shp = 1).
  { rewrite dataset_array_shape in Hnil. apply (squeezed_shape_nil_prod squeeze_me).
    destruct (1 <? length shp); [|exact Hnil].
    rewrite squeezed_shape_rev in Hnil.
    apply (f_equal (@rev nat)) in Hnil. now rewrite rev_involutive in Hnil. }
  rewrite Hprod in Hlen.
  destruct elems as [|x [|? ?]]; simpl in Hlen; try discriminate.
  exists x. split; [reflexivity|].
  destruct (dataset_array_buffer squeeze_me kind shp [x]) as (Hoff & Hbuf & _).
  cbn [_mat_to_dict]. rewrite Harr. rewrite bool_decide_eq_true_2 by exact Hnil.
  unfold item, size, ndarray_at. rewrite Hnil, Hoff, Hbuf. reflexivity.
Qed.

(** The array read from a dataset with one element per index is a well-formed
    view. *)
Lemma read_dataset_wf (kind : ascii) (shp : list nat) elems :
  length elems = fold_right Nat.mul 1 shp -> wf_ndarray (read_dataset kind shp elems).
Proof.
  intros Hlen. split; [apply length_c_strides|].
  intros idx Hv. destruct (read_dataset_at kind shp elems idx Hlen Hv) as (x & _ & ->).
  eauto.
Qed.

(** ** The simplification pass *)

Lemma simplify_object_array (a : ndarray pyobj) :
  dtype_kind a = "O"%char ->
  _simplify (PyArray a) =
  items ← ndarray_iter a; PyList <$> exc_mapM _simplify items.
Proof.
  intros Hk. rewrite _simplify_equation_2, Hk. simpl.
  destruct (ndarray_iter a) as [items|e]; simpl; [|reflexivity].
  now rewrite exc_mapM_in_eq.
Qed.

Lemma simplify_other_array (a : ndarray pyobj) :
  dtype_kind a <> "O"%char -> _simplify (PyArray a) = Ok (PyArray a).
Proof.
  intros Hk. rewrite _simplify_equation_2.
  destruct (Ascii.eqb_spec (dtype_kind a) "O"); [contradiction|reflexivity].
Qed.

Lemma simplify_dict (d : pydict) :
  _simplify (PyDict d) =
  items ← exc_mapM (fun kv => v ← _simplify (snd kv); Ok (fst kv, v)) d;
  Ok (PyDict (dict_of_items items)).
Proof.
  rewrite _simplify_equation_4.
  now rewrite (exc_mapM_in_eq (fun kv => v ← _simplify (snd kv); Ok (fst kv, v))).
Qed.

(** Iterating over a well-formed array of at least one dimension yields
    one item per index of the first axis. *)
Lemma ndarray_iter_wf (a : ndarray pyobj) (n : nat) (shp' : list nat) :
  wf_ndarray a -> shape a = n :: shp' ->
  exists items, ndarray_iter a = Ok items /\
    Forall2 (fun i item => ndarray_getitem a i = Ok item) (seq 0 n) items.
Proof.
  intros [Hlen Hin] Hs. unfold ndarray_iter. rewrite Hs.
  assert (Hall : Forall (fun i => exists item, ndarray_getitem a i = Ok item) (seq 0 n)).
  { apply List.Forall_forall. intros i Hi. apply in_seq in Hi.
    unfold ndarray_getitem. rewrite Hs.
    destruct (strides a) as [|s strd] eqn:Hst; [rewrite Hs in Hlen; discriminate|].
    destruct shp' as [|m shp']; [|eauto].
    specialize (Hin [i]). rewrite Hs in Hin.
    destruct Hin as [x Hx]; [repeat constructor; lia|].
    unfold ndarray_at in Hx. rewrite Hst in Hx. simpl in Hx.
    replace (offset a + (i * s + 0)) with (offset a + i * s) in Hx by lia.
    rewrite Hx. eauto. }
  induction Hall as [|i l [item Hi] _ IH]; simpl.
  - exists []. split; [reflexivity|constructor].
  - destruct IH as (items & -> & HF). rewrite Hi.
    exists (item :: items). split; [reflexivity|]. now constructor.
Qed.

Lemma simplify_item_iff (kv kv' : string * pyobj) :
  (v ← _simplify (snd kv); Ok (fst kv, v)) = Ok kv' <->
  fst kv' = fst kv /\ _simplify (snd kv) = Ok (snd kv').
Proof.
  destruct kv as [k v], kv' as [k' v']. simpl.
  destruct (_simplify v) as [w|e]; simpl; split.
  - now intros [= <- <-].
  - now intros [-> [= ->]].
  - discriminate.
  - now intros [_ ?].
Qed.

Lemma Forall2_same_keys {V W} (P : V -> W -> Prop)
    (d : list (string * V)) (d' : list (string * W)) :
  Forall2 (fun kv kv' => fst kv' = fst kv /\ P (snd kv) (snd kv')) d d' ->
  dict_keys d' = dict_keys d.
Proof.
  induction 1 as [|kv kv' l l' [Hk _] _ IH]; simpl; [reflexivity|].
  now rewrite Hk, IH.
Qed.

(** The pass on an object array: one entry per index of the first axis,
    the simplification of the item at that index. *)
Lemma simplify_array_spec (a : ndarray pyobj) (n : nat) (shp' : list nat) :
  dtype_kind a = "O"%char -> wf_ndarray a -> shape a = n :: shp' ->
  exists items,
    Forall2 (fun i item => ndarray_getitem a i = Ok item) (seq 0 n) items /\
    (forall l, _simplify (PyArray a) = Ok (PyList l) <->
               Forall2 (fun item y => _simplify item = Ok y) items l) /\
    (forall r, _simplify (PyArray a) = Ok r ->
               exists l, r = PyList l /\ length l = n) /\
    (shp' = [] -> n = size a).
Proof.
  intros Hk Hwf Hs.
  destruct (ndarray_iter_wf a n shp' Hwf Hs) as (items & Hit & Hitems).
  exists items. split; [exact Hitems|].
  assert (Hlen : length items = n).
  { apply Forall2_length in Hitems. now rewrite length_seq in Hitems. }
  rewrite simplify_object_array, Hit by exact Hk. simpl.
  split; [|split].
  - intros l. rewrite <- exc_mapM_Forall2.
    destruct (exc_mapM _simplify items); simpl; split; congruence.
  - intros r. destruct (exc_mapM _simplify items) as [l|] eqn:Hl; simpl; [|discriminate].
    intros [= <-]. exists l. split; [reflexivity|].
    apply exc_mapM_length in Hl. congruence.
  - intros ->. unfold size. rewrite Hs. simpl. lia.
Qed.

(** The pass on a dict: the same keys in the same order, each value
    simplified. *)
Lemma simplify_dict_spec (d : pydict) :
  List.NoDup (dict_keys d) ->
  (forall d', _simplify (PyDict d) = Ok (PyDict d') <->
     Forall2 (fun kv kv' => fst kv' = fst kv /\ _simplify (snd kv) = Ok (snd kv')) d d') /\
  (forall r, _simplify (PyDict d) = Ok r ->
     exists d', r = PyDict d' /\ dict_keys d' = dict_keys d).
Proof.
  intros Hnd.
  assert (Hiff : forall d',
    exc_mapM (fun kv => v ← _simplify (snd kv); Ok (fst kv, v)) d = Ok d' <->
    Forall2 (fun kv kv' => fst kv' = fst kv /\ _simplify (snd kv) = Ok (snd kv')) d d').
  { intros d'. rewrite exc_mapM_Forall2.
    split; intros H; eapply Forall2_impl; try exact H;
      intros kv kv'; apply simplify_item_iff. }
  rewrite simplify_dict.
  destruct (exc_mapM _ d) as [items|e] eqn:Hm; simpl.
  - pose proof (proj1 (Hiff items) eq_refl) as HF.
    pose proof (Forall2_same_keys (fun v v' => _simplify v = Ok v') _ _ HF) as Hk.
    rewrite dict_of_items_nodup by (now rewrite Hk).
    split.
    + intros d'. rewrite <- Hiff. split; congruence.
    + intros r [= <-]. eauto.
  - split.
    + intros d'. rewrite <- Hiff. split; discriminate.
    + discriminate.
Qed.

(** C5, as amended.  For an object array of at least one dimension the
    simplification pass returns a list with one entry per index of the
    FIRST axis, entry [i] being the simplification of the item [a[i]] (an
    element for a one-dimensional array, where the length is the element
    count; a sub-array otherwise, itself turned into a list: nesting is
    preserved).  A dict is simplified value by value under the same keys,
    in the same order.  Every other value is returned unchanged. *)
Theorem simplify_spec :
  (forall (a : ndarray pyobj) (n : nat) (shp' : list nat),
     dtype_kind a = "O"%char -> wf_ndarray a -> shape a = n :: shp' ->
     exists items,
       Forall2 (fun i item => ndarray_getitem a i = Ok item) (seq 0 n) items /\
       (forall l, _simplify (PyArray a) = Ok (PyList l) <->
                  Forall2 (fun item y => _simplify item = Ok y) items l) /\
       (forall r, _simplify (PyArray a) = Ok r ->
                  exists l, r = PyList l /\ length l = n) /\
       (shp' = [] -> n = size a)) /\
  (forall d : pydict,
     List.NoDup (dict_keys d) ->
     (forall d', _simplify (PyDict d) = Ok (PyDict d') <->
        Forall2 (fun kv kv' => fst kv' = fst kv /\ _simplify (snd kv) = Ok (snd kv')) d d') /\
     (forall r, _simplify (PyDict d) = Ok r ->
        exists d', r = PyDict d' /\ dict_keys d' = dict_keys d)) /\
  (forall v : pyobj,
     (forall a, v = PyArray a -> dtype_kind a <> "O"%char) ->
     (forall d, v <> PyDict d) ->
     _simplify v = Ok v).
Proof.
  split; [exact simplify_array_spec|]. split; [exact simplify_dict_spec|].
  intros [x|a|l|d] Harr Hdict.
  - apply _simplify_equation_1.
  - apply simplify_other_array. now apply Harr.
  - apply _simplify_equation_3.
  - now destruct (Hdict d).
Qed.

(** ** The hierarchical adapter *)

Lemma dict_get_In {V} (d : list (string * V)) (k : string) :
  In k (dict_keys d) <-> is_Some (dict_get d k).
Proof.
  induction d as [|[k' v] d IH]; simpl.
  - split; [intros []|]. intros [? [=]].
  - destruct (String.eqb_spec k k') as [->|Hne].
    + split; eauto.
    + rewrite <- IH. split; [intros [?|?]; congruence || assumption|auto].
Qed.

Lemma dict_set_keys_In {V} (d : list (string * V)) k v k0 :
  In k0 (dict_keys (dict_set d k v)) <-> k0 = k \/ In k0 (dict_keys d).
Proof.
  induction d as [|[k' v'] d IH]; simpl.
  - split; [intros [<-|[]]; auto|intros [->|[]]; auto].
  - destruct (String.eqb_spec k k') as [->|Hne]; simpl.
    + split; [intros [<-|?]; auto|intros [->|[<-|?]]; auto].
    + rewrite IH. split; [intros [?|[?|?]]; auto|intros [?|[?|?]]; auto].
Qed.

Lemma dict_set_NoDup {V} (d : list (string * V)) k v :
  List.NoDup (dict_keys d) -> List.NoDup (dict_keys (dict_set d k v)).
Proof.
  induction d as [|[k' v'] d IH]; simpl; intros H.
  - constructor; [intros []|constructor].
  - inversion H as [|? ? Hnin Hd]; subst.
    destruct (String.eqb_spec k k') as [->|Hne]; simpl.
    + now constructor.
    + constructor; [|now apply IH].
      rewrite dict_set_keys_In. intros [?|?]; [congruence|contradiction].
Qed.

(** The dict built by a comprehension has the keys of its items, each
    once. *)
Lemma dict_of_items_keys {V} (items : list (string * V)) :
  List.NoDup (dict_keys (dict_of_items items)) /\
  forall k, In k (dict_keys (dict_of_items items)) <-> In k (dict_keys items).
Proof.
  unfold dict_of_items.
  assert (H : forall acc : list (string * V), List.NoDup (dict_keys acc) ->
    let r := fold_left (fun d kv => dict_set d (fst kv) (snd kv)) items acc in
    List.NoDup (dict_keys r) /\
    forall k, In k (dict_keys r) <-> In k (dict_keys acc) \/ In k (dict_keys items)).
  { induction items as [|[k v] items IH]; intros acc Hacc; simpl.
    - split; [exact Hacc|]. intros k. split; [now left|]. now intros [?|[]].
    - destruct (IH (dict_set acc k v) (dict_set_NoDup acc k v Hacc)) as [Hnd Hin].
      split; [exact Hnd|]. intros k0. rewrite Hin, dict_set_keys_In. simpl.
      split.
      + intros [[->|?]|?]; [right; now left|now left|right; now right].
      + intros [?|[<-|?]]; [left; now right|left; now left|now right]. }
  destruct (H [] (List.NoDup_nil _)) as [Hnd Hin].
  split; [exact Hnd|]. intros k. rewrite Hin. simpl.
  split; [now intros [[]|?]|now right].
Qed.

Lemma convert_items_keys {X} (f : X -> exc pyobj) (l : list (string * X))
    (items : pydict) :
  exc_mapM (fun kv => v ← f (snd kv); Ok (fst kv, v)) l = Ok items ->
  dict_keys items = dict_keys l.
Proof.
  revert items. induction l as [|[k x] l IH]; simpl; intros items.
  - now intros [= <-].
  - destruct (f x); simpl; [|discriminate].
    destruct (exc_mapM _ l) as [items'|]; [|discriminate].
    intros [= <-]. simpl. f_equal. now apply IH.
Qed.

Lemma load_h5py_split mat_file variable_names (squeeze_me simplify_cells : bool) :
  load_h5py mat_file variable_names squeeze_me simplify_cells =
  data ← load_h5py mat_file None squeeze_me simplify_cells;
  filter_step variable_names data.
Proof.
  unfold load_h5py, filter_step.
  destruct (h5py_File (fspath mat_file)) as [mat|]; simpl; [|reflexivity].
  destruct (exc_mapM _ mat) as [items|]; simpl; [|reflexivity].
  destruct (if simplify_cells then _ else _) as [data|]; simpl; reflexivity.
Qed.

(** Without a filter the adapter returns a dict whose keys are the names
    of the root group: as a set in general, in the store's order when the
    names are distinct. *)
Lemma load_h5py_unfiltered mat_file (squeeze_me simplify_cells : bool) (r : pyobj) :
  load_h5py mat_file None squeeze_me simplify_cells = Ok r ->
  exists mat d,
    h5py_File (fspath mat_file) = Ok mat /\ r = PyDict d /\
    List.NoDup (dict_keys d) /\
    (forall k, In k (dict_keys d) <-> In k (dict_keys mat)) /\
    (List.NoDup (dict_keys mat) -> dict_keys d = dict_keys mat).
Proof.
  unfold load_h5py.
  destruct (h5py_File (fspath mat_file)) as [mat|]; simpl; [|discriminate].
  destruct (exc_mapM _ mat) as [items|] eqn:Hitems; simpl; [|discriminate].
  apply convert_items_keys in Hitems.
  destruct (dict_of_items_keys items) as [Hnd Hin].
  assert (Hbase : forall d, Ok (PyDict d) = Ok r ->
    dict_keys d = dict_keys (dict_of_items items) ->
    exists mat' d', Ok mat = Ok mat' /\ r = PyDict d' /\ List.NoDup (dict_keys d') /\
      (forall k, In k (dict_keys d') <-> In k (dict_keys mat')) /\
      (List.NoDup (dict_keys mat') -> dict_keys d' = dict_keys mat')).
  { intros d [= <-] Hk. exists mat, d. rewrite Hk, <- Hitems.
    repeat split; auto; try apply Hin.
    intros Hm. now rewrite dict_of_items_nodup. }
  destruct simplify_cells; simpl.
  - destruct (simplify_dict_spec (dict_of_items items) Hnd) as [_ Hr].
    destruct (_simplify _) as [r'|] eqn:Hs; simpl; [|discriminate].
    destruct (Hr r' eq_refl) as (d' & -> & Hk).
    intros H. now apply (Hbase d').
  - intros H. now apply (Hbase (dict_of_items items)).
Qed.

Hypothesis iter_set_perm :
  forall xs ys : list string,
    iter_set xs ys ≡ₚ elements (list_to_set xs ∩ list_to_set ys : gset string).

Lemma iter_set_In (xs ys : list string) (k : string) :
  In k (iter_set xs ys) <-> In k xs /\ In k ys.
Proof using iter_set_perm.
  rewrite <- !list_elem_of_In, iter_set_perm, elem_of_elements, elem_of_intersection.
  now rewrite !elem_of_list_to_set.
Qed.

Lemma iter_set_NoDup (xs ys : list string) : List.NoDup (iter_set xs ys).
Proof using iter_set_perm. apply NoDup_ListNoDup. rewrite iter_set_perm. apply NoDup_elements. Qed.

(** The filter step on a dict: the keys of the result are the iteration of
    the set intersection, the values are those of the dict. *)
Lemma filter_step_dict (names : list string) (d : pydict) :
  names <> [] ->
  exists d',
    filter_step (Some names) (PyDict d) = Ok (PyDict d') /\
    dict_keys d' = iter_set (dict_keys d) names /\
    forall k, In k (dict_keys d') -> dict_get d' k = dict_get d k.
Proof using iter_set_perm.
  intros Hne. unfold filter_step.
  replace (names_truthy (Some names)) with true
    by (destruct names; [contradiction|reflexivity]).
  simpl.
  set (vars := iter_set (dict_keys d) names).
  assert (Hsub : forall k, In k vars -> In k (dict_keys d)).
  { intros k Hk. now apply iter_set_In in Hk as [Hk _]. }
  assert (Hnd : List.NoDup vars) by apply iter_set_NoDup.
  clearbody vars.
  assert (H : exists items,
    exc_mapM (fun var => v ← match dict_get d var with
                             | Some v => Ok v
                             | None => Raise (Exn KeyError var None)
                             end; Ok (var, v)) vars = Ok items /\
    dict_keys items = vars /\
    forall k, In k vars -> dict_get items k = dict_get d k).
  { induction vars as [|var vars IH]; simpl.
    - exists []. split; [reflexivity|]. split; [reflexivity|]. intros k [].
    - inversion Hnd as [|? ? Hnin Hnd']; subst.
      destruct IH as (items & -> & Hk & Hget);
        [intros k Hk; apply Hsub; now right|assumption|].
      destruct (proj1 (dict_get_In d var) (Hsub var (or_introl eq_refl))) as [v Hv].
      rewrite Hv. simpl. exists ((var, v) :: items).
      split; [reflexivity|]. split; [simpl; congruence|].
      intros k [<-|Hin]; simpl.
      + now rewrite String.eqb_refl.
      + destruct (String.eqb_spec k var) as [->|_]; [contradiction|]. now apply Hget. }
  destruct H as (items & -> & Hk & Hget). simpl.
  exists (dict_of_items items).
  rewrite dict_of_items_nodup by (now rewrite Hk).
  split; [reflexivity|]. split; [exact Hk|]. rewrite Hk. exact Hget.
Qed.

(** ** Induction on trees and values *)

Lemma h5node_induction (P : h5node -> Prop) :
  (forall kind shp elems, P (Dataset kind shp elems)) ->
  (forall links, Forall (fun kv => P (snd kv)) links -> P (Group links)) ->
  (forall type_name, P (OtherNode type_name)) ->
  forall n, P n.
Proof.
  intros Hd Hg Ho. fix IH 1. intros [kind shp elems|links|t].
  - apply Hd.
  - apply Hg. induction links as [|[k c] links IHl]; constructor.
    + apply IH.
    + exact IHl.
  - apply Ho.
Qed.

Lemma pyobj_induction (P : pyobj -> Prop) :
  (forall x, P (PyScalar x)) ->
  (forall a, Forall P (buffer a) -> P (PyArray a)) ->
  (forall items, Forall P items -> P (PyList items)) ->
  (forall d, Forall (fun kv => P (snd kv)) d -> P (PyDict d)) ->
  forall v, P v.
Proof.
  intros Hs Ha Hl Hd. fix IH 1. intros [x|[k shp strd off buf]|items|d].
  - apply Hs.
  - apply Ha. simpl. induction buf as [|v buf IHb]; constructor; [apply IH|exact IHb].
  - apply Hl. induction items as [|v items IHi]; constructor; [apply IH|exact IHi].
  - apply Hd. induction d as [|[k v] d IHd]; constructor; [apply IH|exact IHd].
Qed.

(** A comprehension whose body returns on every element returns, and a
    property of the results of the body holds of each entry. *)
Lemma exc_mapM_total {A B} (f : A -> exc B) (Q : A -> B -> Prop) (l : list A) :
  Forall (fun x => exists y, f x = Ok y /\ Q x y) l ->
  exists ys, exc_mapM f l = Ok ys /\ Forall2 Q l ys.
Proof.
  induction 1 as [|x l (y & Hy & HQ) _ (ys & Hys & HF)]; simpl.
  - exists []. split; [reflexivity|constructor].
  - rewrite Hy, Hys. exists (y :: ys). split; [reflexivity|]. now constructor.
Qed.

Lemma h5_value_dict (squeeze_me : bool) (d : pydict) :
  fold_right (fun kv rest => h5_value squeeze_me (snd kv) /\ rest) True d <->
  Forall (fun kv => h5_value squeeze_me (snd kv)) d.
Proof.
  induction d as [|kv d IH]; simpl.
  - split; [constructor|trivial].
  - rewrite IH. split.
    + intros [? ?]. now constructor.
    + intros H. inversion H; subst. now split.
Qed.

(** ** Well-formed views *)

Lemma wf_T {A} (a : ndarray A) : wf_ndarray a -> wf_ndarray (T a).
Proof.
  intros [Hlen Hin]. split; [simpl; now rewrite !length_rev|].
  intros idx Hv. simpl in Hv.
  pose proof (valid_index_rev _ _ Hv) as Hr. rewrite rev_involutive in Hr.
  pose proof (Forall2_length _ _ _ Hr) as Hl.
  destruct (Hin _ Hr) as [x Hx]. exists x.
  unfold ndarray_at in *. simpl.
  rewrite <- (rev_involutive idx), dot_rev; [exact Hx|]. lia.
Qed.

(** An index of the squeezed shape comes from an index of the full shape
    that addresses the same element. *)
Lemma unsqueeze_index (shp strd idx' : list nat) :
  length strd = length shp ->
  valid_index idx' (map fst (List.filter kept_axis (combine shp strd))) ->
  exists idx, valid_index idx shp /\
    dot idx strd = dot idx' (map snd (List.filter kept_axis (combine shp strd))).
Proof.
  revert strd idx'. induction shp as [|n shp IH]; intros [|s strd] idx' Hl Hv;
    simpl in *; try discriminate.
  - inversion Hv; subst. exists []. split; [constructor|reflexivity].
  - assert (Hk : kept_axis (n, s) = negb (n =? 1)) by reflexivity.
    rewrite Hk in *. destruct (Nat.eqb_spec n 1) as [->|Hn]; simpl in *.
    + destruct (IH strd idx') as (idx & Hi & Hd); [lia|exact Hv|].
      exists (0 :: idx). split; [constructor; [lia|exact Hi]|]. simpl. lia.
    + inversion Hv as [|i ? idx0 ? Hi Hrest]; subst.
      destruct (IH strd idx0) as (idx & Hi' & Hd); [lia|exact Hrest|].
      exists (i :: idx). split; [now constructor|]. simpl. lia.
Qed.

Lemma wf_np_squeeze {A} (a : ndarray A) : wf_ndarray a -> wf_ndarray (np_squeeze a).
Proof.
  intros [Hlen Hin]. split; [simpl; now rewrite !length_map|].
  intros idx' Hv. simpl in Hv.
  destruct (unsqueeze_index _ _ _ Hlen Hv) as (idx & Hi & Hd).
  destruct (Hin _ Hi) as [x Hx]. exists x.
  unfold ndarray_at in *. simpl. now rewrite <- Hd.
Qed.

Lemma wf_dataset_array (squeeze_me : bool) kind shp elems :
  length elems = fold_right Nat.mul 1 shp ->
  wf_ndarray (dataset_array squeeze_me kind shp elems).
Proof.
  intros Hlen. pose proof (read_dataset_wf kind shp elems Hlen) as Hwf.
  unfold dataset_array.
  destruct (1 <? ndim (read_dataset kind shp elems)); destruct squeeze_me;
    auto using @wf_T, @wf_np_squeeze.
Qed.

(** The item [a[i]] of a well-formed array of more than one dimension is a
    well-formed view on the same buffer. *)
Lemma wf_subview (a : ndarray pyobj) (n m i : nat) (shp : list nat) (item0 : pyobj) :
  wf_ndarray a -> shape a = n :: m :: shp -> i < n ->
  ndarray_getitem a i = Ok item0 ->
  exists b, item0 = PyArray b /\ wf_ndarray b /\ shape b = m :: shp /\
            buffer b = buffer a /\ dtype_kind b = dtype_kind a.
Proof.
  intros [Hlen Hin] Hs Hi. unfold ndarray_getitem. rewrite Hs.
  destruct (strides a) as [|s strd] eqn:Hst; [rewrite Hs in Hlen; discriminate|].
  intros [= <-]. eexists. split; [reflexivity|].
  split; [|auto]. split; simpl.
  - rewrite Hs in Hlen. simpl in Hlen. lia.
  - intros idx Hv. destruct (Hin (i :: idx)) as [x Hx].
    { rewrite Hs. now constructor. }
    exists x. unfold ndarray_at in *. rewrite Hst in Hx. simpl in *.
    now rewrite <- Nat.add_assoc.
Qed.

(** ** Simplification of converted values *)

Lemma Forall2_right {A B} (R : A -> B -> Prop) (Q : B -> Prop) (l : list A) (ys : list B) :
  Forall2 R l ys -> (forall x y, In x l -> R x y -> Q y) -> Forall Q ys.
Proof.
  induction 1 as [|x y l ys Hxy _ IH]; intros H; constructor.
  - apply (H x y); [now left|exact Hxy].
  - apply IH. intros x' y' Hin. apply H. now right.
Qed.

(** An object array that is a well-formed view on scalars becomes a list,
    nested once per axis, in which no array is left. *)
Lemma simplify_scalar_view (k : nat) (a : ndarray pyobj) :
  length (shape a) = S k ->
  dtype_kind a = "O"%char -> wf_ndarray a -> Forall is_scalar (buffer a) ->
  exists l, _simplify (PyArray a) = Ok (PyList l) /\ forallb cell_free l = true.
Proof.
  revert a. induction k as [|k IH]; intros a Hk Hkind Hwf Hbuf.
  - destruct (shape a) as [|n [|? ?]] eqn:Hs; try discriminate.
    destruct (ndarray_iter_wf a n [] Hwf Hs) as (items & Hit & Hitems).
    rewrite simplify_object_array, Hit by exact Hkind. simpl.
    assert (Hall : Forall (fun v => exists y, _simplify v = Ok y /\ cell_free y = true) items).
    { apply (Forall2_right _ _ _ _ Hitems). intros i v _.
      unfold ndarray_getitem. rewrite Hs.
      destruct (strides a) as [|s strd]; [discriminate|].
      destruct (buffer a !! (offset a + i * s)) as [x|] eqn:Hx; [|discriminate].
      intros [= <-]. apply list_elem_of_lookup_2 in Hx.
      rewrite List.Forall_forall in Hbuf. apply list_elem_of_In, Hbuf in Hx.
      destruct x as [x| | |]; try contradiction.
      exists (PyScalar x). now rewrite _simplify_equation_1. }
    destruct (exc_mapM_total _ (fun _ y => cell_free y = true) _ Hall) as (l & -> & HF).
    exists l. split; [reflexivity|].
    apply forallb_forall, List.Forall_forall. apply (Forall2_right _ _ _ _ HF). auto.
  - destruct (shape a) as [|n [|m shp]] eqn:Hs; try discriminate.
    destruct (ndarray_iter_wf a n (m :: shp) Hwf Hs) as (items & Hit & Hitems).
    rewrite simplify_object_array, Hit by exact Hkind. simpl.
    assert (Hall : Forall (fun v => exists y, _simplify v = Ok y /\ cell_free y = true) items).
    { apply (Forall2_right _ _ _ _ Hitems). intros i v Hi Hv. apply in_seq in Hi.
      destruct (wf_subview a n m i shp v Hwf Hs) as (b & -> & Hwfb & Hsb & Hbb & Hkb);
        [lia|exact Hv|].
      destruct (IH b) as (l & Hl & Hcf).
      - rewrite Hsb. simpl in *. lia.
      - congruence.
      - exact Hwfb.
      - now rewrite Hbb.
      - exists (PyList l). split; [exact Hl|exact Hcf]. }
    destruct (exc_mapM_total _ (fun _ y => cell_free y = true) _ Hall) as (l & -> & HF).
    exists l. split; [reflexivity|].
    apply forallb_forall, List.Forall_forall. apply (Forall2_right _ _ _ _ HF). auto.
Qed.

(** The pass succeeds on a converted value and leaves no object array. *)
Lemma simplify_h5_value (squeeze_me : bool) (v : pyobj) :
  h5_value squeeze_me v -> exists r, _simplify v = Ok r /\ cell_free r = true.
Proof.
  induction v as [x|a _|items _|d IH] using pyobj_induction; simpl.
  - intros _. exists (PyScalar x). now rewrite _simplify_equation_1.
  - intros (Hne & _ & Hwf & Hbuf).
    destruct (Ascii.eqb_spec (dtype_kind a) "O") as [Hk|Hk].
    + destruct (shape a) as [|n shp] eqn:Hs; [contradiction|].
      destruct (simplify_scalar_view (length shp) a) as (l & Hl & Hcf); auto.
      { now rewrite Hs. }
      exists (PyList l). split; [exact Hl|exact Hcf].
    + exists (PyArray a). split; [now apply simplify_other_array|].
      simpl. now destruct (Ascii.eqb_spec (dtype_kind a) "O").
  - contradiction.
  - intros [Hnd Hvals]. apply h5_value_dict in Hvals.
    assert (Hall : Forall (fun kv => exists y,
              (v ← _simplify (snd kv); Ok (fst kv, v)) = Ok y /\
              (fst y = fst kv /\ cell_free (snd y) = true)) d).
    { apply List.Forall_forall. intros kv Hin.
      rewrite List.Forall_forall in IH, Hvals.
      destruct (IH kv Hin (Hvals kv Hin)) as (r & Hr & Hcf).
      exists (fst kv, r). rewrite Hr. simpl. auto. }
    destruct (exc_mapM_total _ _ _ Hall) as (items & Hitems & HF).
    rewrite simplify_dict, Hitems. simpl.
    assert (Hk : dict_keys items = dict_keys d).
    { clear -HF. induction HF as [|kv it d its [Hk _] _ IHf]; simpl; [reflexivity|].
      now rewrite Hk, IHf. }
    rewrite dict_of_items_nodup by (now rewrite Hk).
    exists (PyDict items). split; [reflexivity|]. simpl.
    apply forallb_forall, List.Forall_forall.
    apply (Forall2_right _ _ _ _ HF). now intros kv it _ [_ ?].
Qed.

(** ** Conversion of a whole tree *)

Lemma squeezed_shape_no_unit (shp : list nat) :
  Forall (fun n => n <> 1) (squeezed_shape true shp).
Proof.
  apply List.Forall_forall. intros n Hn. simpl in Hn.
  apply filter_In in Hn as [_ Hn]. now destruct (Nat.eqb_spec n 1).
Qed.

Lemma dataset_getitem_ReadArray (kind : ascii) (shp : list nat) elems a :
  dataset_getitem kind shp elems = ReadArray a -> a = read_dataset kind shp elems.
Proof.
  unfold dataset_getitem.
  destruct shp; [destruct elems; [|destruct (Ascii.eqb kind "O")]|]; congruence.
Qed.

(** The dataset branch, for a dataset that is read as an array: a scalar
    when no axis is left, the array otherwise. *)
Lemma dataset_converted (squeeze_me : bool) kind shp elems :
  dataset_getitem kind shp elems = ReadArray (read_dataset kind shp elems) ->
  length elems = fold_right Nat.mul 1 shp ->
  exists v, _mat_to_dict squeeze_me (Dataset kind shp elems) = Ok v /\
    h5_value squeeze_me v /\ same_keys (Dataset kind shp elems) v.
Proof.
  intros Harr Hlen. cbn [_mat_to_dict]. rewrite Harr.
  destruct (decide (shape (dataset_array squeeze_me kind shp elems) = [])) as [Hnil|Hne].
  - rewrite bool_decide_eq_true_2 by exact Hnil.
    assert (Hprod : fold_right Nat.mul 1 shp = 1).
    { rewrite dataset_array_shape in Hnil. apply (squeezed_shape_nil_prod squeeze_me).
      destruct (1 <? length shp); [|exact Hnil].
      rewrite squeezed_shape_rev in Hnil.
      apply (f_equal (@rev nat)) in Hnil. now rewrite rev_involutive in Hnil. }
    rewrite Hprod in Hlen.
    destruct elems as [|x [|? ?]]; simpl in Hlen; try discriminate.
    destruct (dataset_array_buffer squeeze_me kind shp [x]) as (Hoff & Hbuf & _).
    exists (PyScalar x). split; [|split; exact I].
    unfold item, size, ndarray_at. rewrite Hnil, Hoff, Hbuf. reflexivity.
  - rewrite bool_decide_eq_false_2 by exact Hne.
    eexists. split; [reflexivity|]. split; [|exact I]. simpl.
    split; [exact Hne|]. split; [|split].
    + intros ->. rewrite dataset_array_shape. apply squeezed_shape_no_unit.
    + now apply wf_dataset_array.
    + destruct (dataset_array_buffer squeeze_me kind shp elems) as (_ & -> & _).
      apply List.Forall_forall. intros v Hv. apply in_map_iff in Hv as (x & <- & _).
      exact I.
Qed.

Lemma same_keys_group (links : list (string * h5node)) (d : pydict) :
  Forall2 (fun kv it => fst it = fst kv /\ same_keys (snd kv) (snd it)) links d ->
  same_keys (Group links) (PyDict d).
Proof.
  induction 1 as [|[k c] [k' v] links d [Hk Hv] _ IH]; simpl; [exact I|].
  simpl in Hk, Hv. auto.
Qed.

(** The dict converted from a group has the names of its links as keys, in
    their order. *)
Lemma same_keys_dict_keys (links : list (string * h5node)) (v : pyobj) :
  same_keys (Group links) v -> exists d, v = PyDict d /\ dict_keys d = dict_keys links.
Proof.
  destruct v as [x|a|items|d]; simpl; try contradiction.
  intros H. exists d. split; [reflexivity|].
  revert d H. induction links as [|[k c] links IH]; intros [|[k' v'] d]; simpl;
    try contradiction; [reflexivity|].
  intros (-> & _ & Hrest). f_equal. now apply IH.
Qed.


(** What [_mat_to_dict] does on a well-formed tree: it raises the error of
    the first node, in the order of the walk, that it cannot convert, and
    returns a converted value of the form of the tree when there is
    none. *)
Lemma mat_to_dict_cases (squeeze_me : bool) (n : h5node) :
  wf_tree n = true ->
  match walk_errors n with
  | [] => exists v, _mat_to_dict squeeze_me n = Ok v /\
            h5_value squeeze_me v /\ same_keys n v
  | e :: _ => _mat_to_dict squeeze_me n = Raise e
  end.
Proof.
  induction n as [kind shp elems|links IH|t] using h5node_induction.
  - intros Hlen. simpl in Hlen. apply Nat.eqb_eq in Hlen.
    cbn [walk_errors].
    destruct (dataset_getitem kind shp elems) as [a|x] eqn:Harr.
    + apply dataset_converted; [|exact Hlen].
      now rewrite (dataset_getitem_ReadArray _ _ _ _ Harr) in Harr.
    + cbn [_mat_to_dict]. now rewrite Harr.
  - simpl. intros Hwf. apply andb_prop in Hwf as [Hnd Hch].
    apply bool_decide_eq_true in Hnd. apply NoDup_ListNoDup in Hnd.
    assert (Hlinks :
      match flat_map (fun kv => walk_errors (snd kv)) links with
      | [] => exists items,
          exc_mapM (fun kv => v ← _mat_to_dict squeeze_me (snd kv); Ok (fst kv, v)) links =
            Ok items /\
          Forall2 (fun kv it => fst it = fst kv /\ h5_value squeeze_me (snd it) /\
                                same_keys (snd kv) (snd it)) links items
      | e :: _ =>
          exc_mapM (fun kv => v ← _mat_to_dict squeeze_me (snd kv); Ok (fst kv, v)) links =
            Raise e
      end).
    { clear Hnd. induction links as [|[k c] links IHl]; simpl.
      - exists []. split; [reflexivity|constructor].
      - simpl in Hch. apply andb_prop in Hch as [Hc Hch].
        inversion IH as [|? ? IHc IHrest]; subst. simpl in IHc.
        specialize (IHc Hc). specialize (IHl IHrest Hch).
        destruct (walk_errors c) as [|e es]; simpl.
        + destruct IHc as (v & -> & Hv & Hsk). simpl.
          destruct (flat_map _ links) as [|e es].
          * destruct IHl as (items & -> & Hall).
            exists ((k, v) :: items). split; [reflexivity|].
            constructor; [|exact Hall]. simpl. auto.
          * now rewrite IHl.
        + now rewrite IHc. }
    destruct (flat_map _ links) as [|e es].
    + destruct Hlinks as (items & -> & Hall). simpl.
      assert (Hk : dict_keys items = dict_keys links).
      { clear -Hall. induction Hall as [|kv it l its [Hk _] _ IHf]; simpl; [reflexivity|].
        now rewrite Hk, IHf. }
      rewrite dict_of_items_nodup by (now rewrite Hk).
      exists (PyDict items). split; [reflexivity|]. split.
      * simpl. split; [now rewrite Hk|]. apply h5_value_dict.
        apply (Forall2_right _ _ _ _ Hall). now intros kv it _ (_ & ? & _).
      * apply same_keys_group. clear -Hall.
        induction Hall as [|kv it l its (? & _ & ?) _ IHf]; constructor; auto.
    + now rewrite Hlinks.
  - intros _. reflexivity.
Qed.



Lemma prod_app (l1 l2 : list nat) :
  fold_right Nat.mul 1 (l1 ++ l2) = fold_right Nat.mul 1 l1 * fold_right Nat.mul 1 l2.
Proof. induction l1 as [|n l1 IH]; simpl; [lia|]. rewrite IH. lia. Qed.

Lemma prod_rev (l : list nat) : fold_right Nat.mul 1 (rev l) = fold_right Nat.mul 1 l.
Proof. induction l as [|n l IH]; simpl; [reflexivity|]. rewrite prod_app, IH. simpl. lia. Qed.

Lemma prod_squeezed (squeeze_me : bool) (l : list nat) :
  fold_right Nat.mul 1 (squeezed_shape squeeze_me l) = fold_right Nat.mul 1 l.
Proof.
  destruct squeeze_me; [|reflexivity]. unfold squeezed_shape.
  induction l as [|n l IH]; simpl; [reflexivity|].
  destruct (Nat.eqb_spec n 1) as [->|_]; simpl; rewrite IH; lia.
Qed.

(** X6.  Transposing and squeezing keep the number of elements: the array
    a dataset is converted to has as many elements as the dataset
    stores. *)
Theorem dataset_array_size (squeeze_me : bool) kind shp elems :
  length elems = fold_right Nat.mul 1 shp ->
  size (dataset_array squeeze_me kind shp elems) = length elems.
Proof.
  intros ->. unfold size. rewrite dataset_array_shape, prod_squeezed.
  destruct (1 <? length shp); [apply prod_rev|reflexivity].
Qed.

Lemma dict_set_In {V} (d : list (string * V)) k v kv :
  In kv (dict_set d k v) -> kv = (k, v) \/ In kv d.
Proof.
  induction d as [|[k' v'] d IH]; simpl.
  - intros [<-|[]]. now left.
  - destruct (String.eqb k k'); simpl.
    + intros [<-|?]; [now left|right; now right].
    + intros [<-|H]; [right; now left|]. destruct (IH H); [now left|right; now right].
Qed.

(** Every item of the dict a comprehension builds was produced by its
    body. *)
Lemma dict_of_items_In {V} (items : list (string * V)) kv :
  In kv (dict_of_items items) -> In kv items.
Proof.
  unfold dict_of_items.
  assert (H : forall acc : list (string * V),
    In kv (fold_left (fun d kv => dict_set d (fst kv) (snd kv)) items acc) ->
    In kv acc \/ In kv items).
  { induction items as [|[k v] items IH]; intros acc; simpl; [now left|].
    intros Hin. destruct (IH _ Hin) as [Hacc|?]; [|right; now right].
    destruct (dict_set_In _ _ _ _ Hacc) as [->|?]; [right; now left|now left]. }
  intros Hin. now destruct (H [] Hin) as [[]|?].
Qed.

Lemma Forall2_same {A} (R : A -> A -> Prop) (l : list A) :
  Forall (fun x => R x x) l -> Forall2 R l l.
Proof. induction 1; now constructor. Qed.

(** X7.  The simplification pass is idempotent: what it returns, it
    returns unchanged when applied again. *)
Theorem simplify_idempotent (v r : pyobj) :
  _simplify v = Ok r -> _simplify r = Ok r.
Proof.
  revert r. induction v as [x|a _|items _|d IH] using pyobj_induction; intros r.
  - rewrite _simplify_equation_1. intros [= <-]. apply _simplify_equation_1.
  - destruct (Ascii.eqb_spec (dtype_kind a) "O") as [Hk|Hk].
    + rewrite simplify_object_array by exact Hk.
      destruct (ndarray_iter a) as [its|]; simpl; [|discriminate].
      destruct (exc_mapM _simplify its) as [l|]; simpl; [|discriminate].
      intros [= <-]. apply _simplify_equation_3.
    + rewrite simplify_other_array by exact Hk. intros [= <-].
      now apply simplify_other_array.
  - rewrite _simplify_equation_3. intros [= <-]. apply _simplify_equation_3.
  - rewrite simplify_dict.
    destruct (exc_mapM _ d) as [items|] eqn:Hitems; simpl; [|discriminate].
    intros [= <-].
    destruct (dict_of_items_keys items) as [Hnd _].
    apply (simplify_dict_spec _ Hnd). apply Forall2_same, List.Forall_forall.
    intros kv Hkv. split; [reflexivity|].
    apply dict_of_items_In in Hkv.
    destruct (exc_mapM_In_inv _ _ _ _ Hitems Hkv) as (kv0 & Hin0 & Hf).
    apply simplify_item_iff in Hf as [_ Hs].
    rewrite List.Forall_forall in IH. exact (IH kv0 Hin0 _ Hs).
Qed.

(** X8.  Data without cell arrays is returned as it is: a value with no
    object array at the top or under a key, at any depth of dicts, is a
    fixed point of the simplification pass. *)
Theorem simplify_no_cells_unchanged (v : pyobj) :
  no_cells v = true -> _simplify v = Ok v.
Proof.
  induction v as [x|a _|items _|d IH] using pyobj_induction; simpl.
  - intros _. apply _simplify_equation_1.
  - intros Hk. apply simplify_other_array.
    now destruct (Ascii.eqb_spec (dtype_kind a) "O").
  - intros _. apply _simplify_equation_3.
  - intros H. apply andb_prop in H as [Hnd Hvals].
    apply bool_decide_eq_true in Hnd. apply NoDup_ListNoDup in Hnd.
    apply (simplify_dict_spec _ Hnd). apply Forall2_same, List.Forall_forall.
    intros kv Hkv. split; [reflexivity|].
    rewrite List.Forall_forall in IH. apply (IH kv Hkv).
    rewrite forallb_forall in Hvals. now apply Hvals.
Qed.


(** C6.  With a non-empty set of requested names the adapter fails exactly
    when it fails without a filter (never because a requested name is
    absent from the file), and otherwise returns a dict whose keys are the
    names of the root group that are also requested, each with the value
    of the unfiltered load.  With an empty set nothing is filtered, and
    without a filter the dict has a key for every name of the root
    group. *)
Theorem load_h5py_filter mat_file (names : list string) (squeeze_me simplify_cells : bool) :
  names <> [] ->
  (forall e, load_h5py mat_file None squeeze_me simplify_cells = Raise e ->
             load_h5py mat_file (Some names) squeeze_me simplify_cells = Raise e) /\
  (forall r, load_h5py mat_file None squeeze_me simplify_cells = Ok r ->
     exists mat d d',
       h5py_File (fspath mat_file) = Ok mat /\ r = PyDict d /\
       (forall k, In k (dict_keys d) <-> In k (dict_keys mat)) /\
       load_h5py mat_file (Some names) squeeze_me simplify_cells = Ok (PyDict d') /\
       List.NoDup (dict_keys d') /\
       (forall k, In k (dict_keys d') <-> In k (dict_keys mat) /\ In k names) /\
       (forall k, In k (dict_keys d') -> dict_get d' k = dict_get d k)) /\
  load_h5py mat_file (Some []) squeeze_me simplify_cells =
  load_h5py mat_file None squeeze_me simplify_cells.
Proof using iter_set_perm.
  intros Hne. split; [|split].
  - intros e He. now rewrite load_h5py_split, He.
  - intros r Hr.
    destruct (load_h5py_unfiltered _ _ _ _ Hr) as (mat & d & Hmat & -> & Hnd & Hin & _).
    destruct (filter_step_dict names d Hne) as (d' & Hf & Hk & Hget).
    assert (Hkeys : forall k, In k (dict_keys d') <-> In k (dict_keys mat) /\ In k names).
    { intros k. rewrite Hk, iter_set_In, Hin. reflexivity. }
    exists mat, d, d'.
    split; [exact Hmat|]. split; [reflexivity|]. split; [exact Hin|].
    split; [now rewrite load_h5py_split, Hr|].
    split; [rewrite Hk; apply iter_set_NoDup|].
    split; [exact Hkeys|exact Hget].
  - rewrite (load_h5py_split _ (Some [])). unfold filter_step. simpl.
    destruct (load_h5py mat_file None squeeze_me simplify_cells); reflexivity.
Qed.

(** The keys of the dict the adapter returns, in order: the names of the
    root group in the store's order without a filter, the iteration of the
    set intersection with a filter. *)
Lemma load_h5py_key_order mat_file variable_names (squeeze_me simplify_cells : bool)
    (mat : list (string * h5node)) (r : pyobj) :
  h5py_File (fspath mat_file) = Ok mat ->
  List.NoDup (dict_keys mat) ->
  load_h5py mat_file variable_names squeeze_me simplify_cells = Ok r ->
  exists d, r = PyDict d /\
    dict_keys d =
      if names_truthy variable_names
      then iter_set (dict_keys mat) (default [] variable_names)
      else dict_keys mat.
Proof using iter_set_perm.
  intros Hmat Hnd. rewrite load_h5py_split.
  destruct (load_h5py mat_file None squeeze_me simplify_cells) as [r0|] eqn:Hr0;
    simpl; [|discriminate].
  destruct (load_h5py_unfiltered _ _ _ _ Hr0) as (mat' & d & Hmat' & -> & _ & _ & Hk).
  rewrite Hmat in Hmat'. injection Hmat' as <-. specialize (Hk Hnd).
  destruct (names_truthy variable_names) eqn:Ht.
  - destruct variable_names as [[|n names]|]; try discriminate.
    destruct (filter_step_dict (n :: names) d) as (d' & Hf & Hk' & _); [discriminate|].
    rewrite Hf. intros [= <-]. exists d'. split; [reflexivity|].
    rewrite Hk', Hk. reflexivity.
  - unfold filter_step. rewrite Ht. intros [= <-]. eauto.
Qed.

Lemma load_h5py_returns_dict mat_file variable_names (squeeze_me simplify_cells : bool) r :
  load_h5py mat_file variable_names squeeze_me simplify_cells = Ok r ->
  exists d, r = PyDict d.
Proof.
  rewrite load_h5py_split.
  destruct (load_h5py mat_file None squeeze_me simplify_cells) as [r0|] eqn:Hr0;
    simpl; [|discriminate].
  destruct (load_h5py_unfiltered _ _ _ _ Hr0) as (_ & d & _ & -> & _).
  unfold filter_step. destruct (names_truthy variable_names); simpl.
  - destruct (exc_mapM _ _); simpl; [|discriminate]. intros [= <-]. eauto.
  - intros [= <-]. eauto.
Qed.

(** ** The facade *)

Lemma init_no_exists mat_file variable_names version e :
  arg_exists mat_file = Raise e ->
  MatData_init mat_file variable_names version = IO [] (Raise e).
Proof. intros H. unfold MatData_init, mbind, io_bind, io_lift. simpl. now rewrite H. Qed.

Lemma init_missing mat_file variable_names version :
  arg_exists mat_file = Ok false ->
  MatData_init mat_file variable_names version =
  IO [] (Raise (Exn FileNotFoundError ("File '" +:+ fspath mat_file +:+ "' not found") None)).
Proof. intros H. unfold MatData_init, mbind, io_bind, io_lift. simpl. now rewrite H. Qed.

(** A declared version: one call of the selected adapter, every failure
    that derives from [Exception] wrapped. *)
Lemma init_declared mat_file variable_names version f :
  arg_exists mat_file = Ok true ->
  select_load_method version = Some f ->
  MatData_init mat_file variable_names version =
  IO [mk_call f mat_file variable_names true true]
     (wrapped mat_file (adapter_body f mat_file variable_names true true)).
Proof.
  intros H Hf. unfold MatData_init, mbind, io_bind, io_lift. simpl. rewrite H. simpl.
  rewrite Hf. unfold io_try, call2, mbind, io_bind, wrapped. simpl.
  assert (Hd1 : default_squeeze_me f = true) by now destruct f.
  assert (Hd2 : default_simplify_cells f = true) by now destruct f.
  rewrite Hd1, Hd2.
  destruct (adapter_body f mat_file variable_names true true) as [d|e]; simpl; [reflexivity|].
  destruct (isinstance e Exception); reflexivity.
Qed.

(** No version (or a version equal to 0): the hierarchical adapter is
    called first; on an [OSError] the legacy adapter is called and its
    failures are wrapped; another failure of the hierarchical adapter
    leaves [__init__] as it is. *)
Lemma init_trial mat_file variable_names version :
  arg_exists mat_file = Ok true ->
  select_load_method version = None ->
  MatData_init mat_file variable_names version =
  match load_h5py mat_file variable_names true true with
  | Ok d => IO [h5py_call mat_file variable_names] (Ok (mk_MatData (fspath mat_file) d))
  | Raise e =>
      if isinstance e OSError
      then IO [h5py_call mat_file variable_names; scipy_call mat_file variable_names]
              (wrapped mat_file (load_scipy mat_file variable_names true true))
      else IO [h5py_call mat_file variable_names] (Raise e)
  end.
Proof.
  intros H Hf. unfold MatData_init, mbind, io_bind, io_lift. simpl. rewrite H. simpl.
  rewrite Hf. unfold io_try, call2, mbind, io_bind, wrapped. simpl.
  destruct (load_h5py mat_file variable_names true true) as [d|e]; simpl; [reflexivity|].
  destruct (isinstance e OSError); simpl; [|reflexivity].
  destruct (load_scipy mat_file variable_names true true) as [d'|e']; simpl; [reflexivity|].
  destruct (isinstance e' Exception); reflexivity.
Qed.

Lemma num_gt_not_le (v : pynum) : num_gt_7_2 v = true -> num_le_7_2 v = false.
Proof.
  destruct v as [z|f]; simpl.
  - intros H. apply Z.ltb_lt in H. apply Z.leb_gt. exact H.
  - unfold SFltb, SFleb, f7_2.
    generalize 8106479329266893%positive as m0. intros m0.
    destruct f as [s|s| |s m e]; cbn [SFcompare]; try discriminate.
    + now destruct s.
    + destruct s; [discriminate|].
      rewrite (Z.compare_antisym (-50) e).
      destruct (-50 ?= e)%Z; cbn [CompOpp]; try discriminate; [|reflexivity].
      pose proof (Pos.compare_cont_antisym m m0 Eq) as Ha. cbn [CompOpp] in Ha.
      rewrite <- Ha.
      destruct (Pos.compare_cont Eq m m0); cbn [CompOpp]; try discriminate; reflexivity.
Qed.

(** C1 (where the code departs from the claim).  With no declared
    version, a failure of the hierarchical adapter that is not an
    [OSError] leaves [__init__] as it was raised: the legacy adapter is
    not tried and the exception is not wrapped in the generic load
    error. *)
Theorem no_version_other_failure_is_bare mat_file variable_names e :
  arg_exists mat_file = Ok true ->
  load_h5py mat_file variable_names true true = Raise e ->
  isinstance e OSError = false ->
  MatData_init mat_file variable_names None =
  IO [h5py_call mat_file variable_names] (Raise e).
Proof.
  intros Hex Hload Hcls. rewrite init_trial by (assumption || reflexivity).
  now rewrite Hload, Hcls.
Qed.

(** X1.  With no declared version the hierarchical adapter is called
    first; when it succeeds its data is kept; when it fails with an
    [OSError] the legacy adapter is called with the same arguments, and a
    failure of that one is wrapped, with the original as cause. *)
Theorem no_version_fallback mat_file variable_names :
  arg_exists mat_file = Ok true ->
  (forall d, load_h5py mat_file variable_names true true = Ok d ->
     MatData_init mat_file variable_names None =
     IO [h5py_call mat_file variable_names] (Ok (mk_MatData (fspath mat_file) d))) /\
  (forall e, load_h5py mat_file variable_names true true = Raise e ->
     isinstance e OSError = true ->
     trace (MatData_init mat_file variable_names None) =
       [h5py_call mat_file variable_names; scipy_call mat_file variable_names] /\
     (forall d, load_scipy mat_file variable_names true true = Ok d ->
        outcome (MatData_init mat_file variable_names None) =
        Ok (mk_MatData (fspath mat_file) d)) /\
     (forall e', load_scipy mat_file variable_names true true = Raise e' ->
        isinstance e' Exception = true ->
        outcome (MatData_init mat_file variable_names None) = Raise (load_error e') /\
        exn_cause (load_error e') = Some e')).
Proof.
  intros Hex. split.
  - intros d Hd. rewrite init_trial by (assumption || reflexivity). now rewrite Hd.
  - intros e He Hcls. rewrite init_trial by (assumption || reflexivity).
    rewrite He, Hcls. simpl. split; [reflexivity|]. split.
    + intros d Hd. now rewrite Hd.
    + intros e' He' Hcls'. rewrite He'. simpl. now rewrite Hcls'.
Qed.

(** C2, as amended.  With a declared version that is not zero, exactly one
    adapter is called, with the file and the filter: the legacy adapter
    when the version is at most 7.2, the hierarchical adapter when it is
    above.  Its data is kept when it succeeds; when it fails with an
    exception deriving from [Exception], the failure is wrapped in the
    generic load error with the original as cause. *)
Theorem declared_version_dispatch mat_file variable_names (v : pynum) :
  arg_exists mat_file = Ok true ->
  num_truthy v = true ->
  exists f,
    (num_le_7_2 v = true -> f = load_scipy_fn) /\
    (num_gt_7_2 v = true -> f = load_h5py_fn) /\
    trace (MatData_init mat_file variable_names (Some v)) =
      [mk_call f mat_file variable_names true true] /\
    (forall d, adapter_body f mat_file variable_names true true = Ok d ->
       outcome (MatData_init mat_file variable_names (Some v)) =
       Ok (mk_MatData (fspath mat_file) d)) /\
    (forall e, adapter_body f mat_file variable_names true true = Raise e ->
       isinstance e Exception = true ->
       outcome (MatData_init mat_file variable_names (Some v)) = Raise (load_error e) /\
       exn_cls (load_error e) = Exception /\
       exn_cause (load_error e) = Some e).
Proof.
  intros Hex Hv.
  exists (if num_le_7_2 v then load_scipy_fn else load_h5py_fn).
  assert (Hsel : select_load_method (Some v) =
                 Some (if num_le_7_2 v then load_scipy_fn else load_h5py_fn)).
  { unfold select_load_method. now rewrite Hv. }
  rewrite (init_declared _ _ _ _ Hex Hsel). simpl.
  split; [now intros ->|]. split; [intros H; now rewrite (num_gt_not_le v H)|].
  split; [reflexivity|]. split.
  - intros d ->. reflexivity.
  - intros e -> Hcls. simpl. now rewrite Hcls.
Qed.

(** C7 (where the code departs from the claim).  The existence check is
    made on the argument as passed, not on the [Path] built from it: for a
    path object without an [exists] method, a [PurePath] or a [str],
    [__init__] raises [AttributeError], whether or not the file exists.
    No reader is called. *)
Theorem init_pure_path_attribute_error (p : string) variable_names version :
  MatData_init (PurePathObj p) variable_names version =
    IO [] (Raise (Exn AttributeError
                    "'PurePosixPath' object has no attribute 'exists'" None)) /\
  MatData_init (StrObj p) variable_names version =
    IO [] (Raise (Exn AttributeError "'str' object has no attribute 'exists'" None)).
Proof. split; now apply init_no_exists. Qed.

(** X2.  For a [pathlib.Path] that does not
    reference an existing file, [__init__] raises [FileNotFoundError]
    naming the path, before any adapter is called. *)
Theorem init_missing_path (p : string) variable_names version :
  path_exists p = false ->
  MatData_init (PathObj p) variable_names version =
  IO [] (Raise (Exn FileNotFoundError ("File '" +:+ p +:+ "' not found") None)).
Proof. intros H. apply (init_missing (PathObj p)). simpl. now rewrite H. Qed.

(** Whatever [__init__] stores in [self.data] is a dict returned by an
    adapter called with [squeeze_me] and [simplify_cells] set. *)
Lemma init_data mat_file variable_names version (self : MatData) :
  outcome (MatData_init mat_file variable_names version) = Ok self ->
  get_file self = fspath mat_file /\
  exists f d,
    adapter_body f mat_file variable_names true true = Ok (PyDict d) /\
    data self = PyDict d /\
    last (trace (MatData_init mat_file variable_names version)) =
      Some (mk_call f mat_file variable_names true true).
Proof.
  assert (Hdict : forall f r, adapter_body f mat_file variable_names true true = Ok r ->
                              exists d, r = PyDict d).
  { intros [|] r; simpl.
    - unfold load_scipy. destruct (sio_loadmat _ _ _ _); simpl; [|discriminate].
      intros [= <-]. eauto.
    - apply load_h5py_returns_dict. }
  destruct (arg_exists mat_file) as [[|]|e] eqn:Hex.
  - destruct (select_load_method version) as [f|] eqn:Hsel.
    + rewrite (init_declared _ _ _ _ Hex Hsel). simpl.
      destruct (adapter_body f mat_file variable_names true true) as [r|e] eqn:Hr; simpl.
      * intros [= <-]. destruct (Hdict f r Hr) as [d ->]. simpl. eauto 6.
      * destruct (isinstance e Exception); discriminate.
    + rewrite (init_trial _ _ _ Hex Hsel).
      destruct (load_h5py mat_file variable_names true true) as [r|e] eqn:Hr; simpl.
      * intros [= <-]. destruct (Hdict load_h5py_fn r Hr) as [d ->]. simpl.
        split; [reflexivity|]. exists load_h5py_fn, d. auto.
      * destruct (isinstance e OSError); simpl; [|discriminate].
        destruct (load_scipy mat_file variable_names true true) as [r'|e'] eqn:Hr'; simpl.
        -- intros [= <-]. destruct (Hdict load_scipy_fn r' Hr') as [d ->]. simpl.
           split; [reflexivity|]. exists load_scipy_fn, d. auto.
        -- destruct (isinstance e' Exception); discriminate.
  - rewrite (init_missing _ _ _ Hex). discriminate.
  - rewrite (init_no_exists _ _ _ _ Hex). discriminate.
Qed.

(** C8.  On a constructed [MatData], [get] of a name absent from the
    loaded dict raises a [KeyError] whose message names the variable;
    [get] of a name present returns the stored value itself. *)
Theorem get_spec mat_file variable_names version (self : MatData) :
  outcome (MatData_init mat_file variable_names version) = Ok self ->
  exists d, data self = PyDict d /\
    forall var,
      (dict_get d var = None ->
         get self var =
         Raise (Exn KeyError ("Variable '" +:+ var +:+ "' not found in data") None)) /\
      (forall v, dict_get d var = Some v -> get self var = Ok v).
Proof.
  intros H. destruct (init_data _ _ _ _ H) as (_ & f & d & _ & Hd & _).
  exists d. split; [exact Hd|]. intros var. unfold get. rewrite Hd. simpl. split.
  - intros ->. rewrite bool_decide_eq_false_2; [reflexivity|]. intros [? [=]].
  - intros v ->. rewrite bool_decide_eq_true_2 by eauto. reflexivity.
Qed.

(** C10.  Where the existence check passes, [__init__] does invoke the
    adapter it chose (the one selected from the version, the hierarchical
    one when none is selected) as its first call.  Every adapter call it
    makes passes the file and the filter it was given and leaves
    [squeeze_me] and [simplify_cells] at their defaults, both set.  The
    data of a constructed [MatData] is what the last call of the trace,
    run with these arguments, returned. *)
Theorem init_calls_use_defaults mat_file variable_names version :
  Forall (fun c => call_mat_file c = mat_file /\
                   call_variable_names c = variable_names /\
                   call_squeeze_me c = true /\
                   call_simplify_cells c = true)
         (trace (MatData_init mat_file variable_names version)) /\
  (arg_exists mat_file = Ok true ->
   exists rest,
     trace (MatData_init mat_file variable_names version) =
     mk_call (default load_h5py_fn (select_load_method version))
             mat_file variable_names true true :: rest) /\
  (forall self, outcome (MatData_init mat_file variable_names version) = Ok self ->
     exists c,
       last (trace (MatData_init mat_file variable_names version)) = Some c /\
       adapter_body (callee c) (call_mat_file c) (call_variable_names c)
                    (call_squeeze_me c) (call_simplify_cells c) = Ok (data self)).
Proof.
  split; [|split].
  - destruct (arg_exists mat_file) as [[|]|e] eqn:Hex.
    + destruct (select_load_method version) as [f|] eqn:Hsel.
      * rewrite (init_declared _ _ _ _ Hex Hsel). simpl. repeat constructor.
      * rewrite (init_trial _ _ _ Hex Hsel).
        destruct (load_h5py mat_file variable_names true true) as [r|e]; simpl.
        -- repeat constructor.
        -- destruct (isinstance e OSError); simpl; repeat constructor.
    + rewrite (init_missing _ _ _ Hex). constructor.
    + rewrite (init_no_exists _ _ _ _ Hex). constructor.
  - intros Hex. destruct (select_load_method version) as [f|] eqn:Hsel.
    + rewrite (init_declared _ _ _ _ Hex Hsel). simpl. now exists [].
    + rewrite (init_trial _ _ _ Hex Hsel). simpl.
      destruct (load_h5py mat_file variable_names true true) as [r|e]; simpl.
      * now exists [].
      * destruct (isinstance e OSError); simpl; eauto.
  - intros self H. destruct (init_data _ _ _ _ H) as (_ & f & d & Hf & Hd & Hlast).
    eexists. split; [exact Hlast|]. simpl. now rewrite Hd.
Qed.

Lemma iter_set_requested (names : list string) (mat : list (string * h5node)) :
  List.NoDup (dict_keys mat) ->
  iter_set (dict_keys mat) names ≡ₚ requested_in_store_order names mat.
Proof using iter_set_perm.
  intros Hnd. apply NoDup_Permutation.
  - apply NoDup_ListNoDup, iter_set_NoDup.
  - apply NoDup_ListNoDup, List.NoDup_filter, Hnd.
  - intros k. unfold requested_in_store_order.
    rewrite !list_elem_of_In, iter_set_In, filter_In, bool_decide_eq_true.
    rewrite list_elem_of_In. reflexivity.
Qed.

(** C9, as amended.  [get_keys] returns the keys of the loaded dict in the
    dict's order.  When the hierarchical adapter loaded the data (and the
    names of the root group are distinct), that order is the store's
    iteration order if no filter was applied; with a filter it is the
    order in which Python iterates the set of the requested names that
    are present, a rearrangement of these names that need not follow the
    store's order. *)
Theorem get_keys_order mat_file variable_names version (self : MatData) :
  outcome (MatData_init mat_file variable_names version) = Ok self ->
  (exists d, data self = PyDict d /\ get_keys self = Ok (dict_keys d)) /\
  (forall mat,
     trace (MatData_init mat_file variable_names version) =
       [h5py_call mat_file variable_names] ->
     h5py_File (fspath mat_file) = Ok mat ->
     List.NoDup (dict_keys mat) ->
     if names_truthy variable_names
     then exists keys,
            get_keys self = Ok keys /\
            keys = iter_set (dict_keys mat) (default [] variable_names) /\
            keys ≡ₚ requested_in_store_order (default [] variable_names) mat
     else get_keys self = Ok (dict_keys mat)).
Proof using iter_set_perm.
  intros H. destruct (init_data _ _ _ _ H) as (_ & f & d & Hf & Hd & Hlast).
  split.
  - exists d. split; [exact Hd|]. unfold get_keys. now rewrite Hd.
  - intros mat Htr Hmat Hnd. rewrite Htr in Hlast. simpl in Hlast.
    injection Hlast as <-. simpl in Hf.
    destruct (load_h5py_key_order _ _ _ _ mat _ Hmat Hnd Hf) as (d' & [= <-] & Hk).
    unfold get_keys. rewrite Hd. simpl. rewrite Hk.
    destruct (names_truthy variable_names); [|reflexivity].
    eexists. split; [reflexivity|]. split; [reflexivity|].
    now apply iter_set_requested.
Qed.

(** ** More on the adapter and the facade *)

Lemma dict_get_Some_In {V} (d : list (string * V)) k v :
  dict_get d k = Some v -> In (k, v) d.
Proof.
  induction d as [|[k' v'] d IH]; simpl; [discriminate|].
  destruct (String.eqb_spec k k') as [->|_].
  - intros [= ->]. now left.
  - intros H. right. now apply IH.
Qed.

Lemma dict_In_get {V} (d : list (string * V)) k v :
  List.NoDup (dict_keys d) -> In (k, v) d -> dict_get d k = Some v.
Proof.
  induction d as [|[k' v'] d IH]; simpl; [intros _ []|].
  intros Hnd. inversion Hnd as [|? ? Hnin Hnd']; subst.
  intros [[= -> ->]|Hin].
  - now rewrite String.eqb_refl.
  - destruct (String.eqb_spec k k') as [->|_]; [|now apply IH].
    exfalso. apply Hnin. apply (in_map fst) in Hin. exact Hin.
Qed.

Lemma dict_get_None {V} (d : list (string * V)) k :
  ~ In k (dict_keys d) -> dict_get d k = None.
Proof.
  intros Hnin. destruct (dict_get d k) as [v|] eqn:Hg; [|reflexivity].
  exfalso. apply Hnin. apply dict_get_In. eauto.
Qed.

(** [get] on an object whose data is the dict [d]. *)
Lemma get_dict (self : MatData) (d : pydict) (var : string) :
  data self = PyDict d ->
  get self var =
  match dict_get d var with
  | Some v => Ok v
  | None => Raise (Exn KeyError ("Variable '" +:+ var +:+ "' not found in data") None)
  end.
Proof.
  intros Hd. unfold get. rewrite Hd. simpl.
  destruct (dict_get d var) as [v|] eqn:Hg.
  - rewrite bool_decide_eq_true_2 by eauto. reflexivity.
  - rewrite bool_decide_eq_false_2; [reflexivity|]. intros [? [=]].
Qed.

(** X10.  On a well-formed HDF5 file in which every dataset is read as an
    array and every node is a dataset or a group, the hierarchical adapter
    returns, whatever the filter and the two flags: a dict with distinct
    keys, all of them names of the root group; with [simplify_cells] set no
    object array is left in it at any depth. *)
Theorem load_h5py_succeeds mat_file variable_names (squeeze_me simplify_cells : bool)
    (mat : list (string * h5node)) :
  h5py_File (fspath mat_file) = Ok mat ->
  wf_tree (Group mat) = true -> walk_errors (Group mat) = [] ->
  exists d,
    load_h5py mat_file variable_names squeeze_me simplify_cells = Ok (PyDict d) /\
    List.NoDup (dict_keys d) /\
    (forall k, In k (dict_keys d) -> In k (dict_keys mat)) /\
    (simplify_cells = true -> forallb (fun kv => cell_free (snd kv)) d = true).
Proof using iter_set_perm.
  intros Hmat Hwf Hnone.
  pose proof (mat_to_dict_cases squeeze_me (Group mat) Hwf) as Hconv.
  rewrite Hnone in Hconv. destruct Hconv as (v & Hv & Hval & _).
  unfold load_h5py. rewrite Hmat. simpl in Hv |- *.
  destruct (exc_mapM _ mat) as [items|] eqn:Hitems; simpl in Hv |- *; [|discriminate].
  injection Hv as <-.
  pose proof (convert_items_keys _ _ _ Hitems) as Hkeys.
  destruct (dict_of_items_keys items) as [Hnd0 Hin0].
  (* the data after the simplification step *)
  assert (Hdata : exists d0,
    (if simplify_cells then _simplify (PyDict (dict_of_items items))
     else Ok (PyDict (dict_of_items items))) = Ok (PyDict d0) /\
    dict_keys d0 = dict_keys (dict_of_items items) /\
    (simplify_cells = true -> forallb (fun kv => cell_free (snd kv)) d0 = true)).
  { destruct simplify_cells.
    - destruct (simplify_h5_value _ _ Hval) as (r & Hr & Hcf).
      destruct (simplify_dict_spec _ Hnd0) as [_ Hshape].
      destruct (Hshape r Hr) as (d0 & -> & Hk0).
      exists d0. split; [exact Hr|]. split; [exact Hk0|]. intros _. exact Hcf.
    - exists (dict_of_items items). split; [reflexivity|]. split; [reflexivity|discriminate]. }
  destruct Hdata as (d0 & -> & Hk0 & Hcf0). simpl.
  assert (Hsub0 : forall k, In k (dict_keys d0) -> In k (dict_keys mat)).
  { intros k. rewrite Hk0, Hin0, Hkeys. auto. }
  destruct (names_truthy variable_names) eqn:Ht.
  - destruct variable_names as [[|n0 names]|]; try discriminate.
    destruct (filter_step_dict (n0 :: names) d0) as (d' & Hf & Hk' & Hget); [discriminate|].
    exists d'. split; [exact Hf|].
    assert (Hnd' : List.NoDup (dict_keys d')) by (rewrite Hk'; apply iter_set_NoDup).
    split; [exact Hnd'|]. split.
    + intros k Hk. apply Hsub0. rewrite Hk' in Hk. now apply iter_set_In in Hk as [Hk _].
    + intros Hs. specialize (Hcf0 Hs). rewrite forallb_forall in Hcf0.
      apply forallb_forall. intros [k v] Hkv.
      pose proof (dict_In_get _ _ _ Hnd' Hkv) as Hg.
      rewrite Hget in Hg by (apply (in_map fst) in Hkv; exact Hkv).
      apply dict_get_Some_In in Hg. apply (Hcf0 _ Hg).
  - unfold filter_step. rewrite Ht.
    exists d0. split; [reflexivity|]. split; [now rewrite Hk0|]. split; assumption.
Qed.

(** X11.  On a constructed object [get] succeeds on exactly the names that
    [get_keys] lists. *)
Theorem get_succeeds_iff_listed mat_file variable_names version (self : MatData) :
  outcome (MatData_init mat_file variable_names version) = Ok self ->
  exists keys, get_keys self = Ok keys /\
    forall var, In var keys <-> exists v, get self var = Ok v.
Proof.
  intros H. destruct (init_data _ _ _ _ H) as (_ & f & d & _ & Hd & _).
  exists (dict_keys d). split; [unfold get_keys; now rewrite Hd|].
  intros var. rewrite (get_dict self d var Hd), dict_get_In.
  destruct (dict_get d var) as [v|]; split.
  - eauto.
  - eauto.
  - intros [? [=]].
  - intros [? [=]].
Qed.

(** The hierarchical adapter alone loaded the data. *)
Lemma init_h5py_only mat_file variable_names version (self : MatData) :
  MatData_init mat_file variable_names version =
    IO [h5py_call mat_file variable_names] (Ok self) ->
  arg_exists mat_file = Ok true /\
  (select_load_method version = Some load_h5py_fn \/ select_load_method version = None) /\
  load_h5py mat_file variable_names true true = Ok (data self).
Proof.
  intros H. destruct (arg_exists mat_file) as [[|]|e] eqn:Hex.
  - split; [reflexivity|].
    destruct (select_load_method version) as [f|] eqn:Hsel.
    + rewrite (init_declared _ _ _ _ Hex Hsel) in H. injection H as Hf Hout.
      unfold h5py_call in Hf. destruct f; try discriminate. split; [now left|].
      simpl in Hout. destruct (load_h5py mat_file variable_names true true) as [r|e];
        simpl in Hout.
      * now injection Hout as <-.
      * destruct (isinstance e Exception); discriminate.
    + rewrite (init_trial _ _ _ Hex Hsel) in H. split; [now right|].
      destruct (load_h5py mat_file variable_names true true) as [r|e].
      * now injection H as <-.
      * destruct (isinstance e OSError); discriminate.
  - rewrite (init_missing _ _ _ Hex) in H. discriminate.
  - rewrite (init_no_exists _ _ _ _ Hex) in H. discriminate.
Qed.

Lemma init_h5py_ok mat_file variable_names version (r : pyobj) :
  arg_exists mat_file = Ok true ->
  (select_load_method version = Some load_h5py_fn \/ select_load_method version = None) ->
  load_h5py mat_file variable_names true true = Ok r ->
  MatData_init mat_file variable_names version =
    IO [h5py_call mat_file variable_names] (Ok (mk_MatData (fspath mat_file) r)).
Proof.
  intros Hex [Hsel|Hsel] Hr.
  - rewrite (init_declared _ _ _ _ Hex Hsel). simpl. now rewrite Hr.
  - rewrite (init_trial _ _ _ Hex Hsel). now rewrite Hr.
Qed.

(** X12.  When the hierarchical adapter loads a file without a filter, it
    also loads it with a non-empty filter, and the filtered object answers
    [get] as the unfiltered one on every requested name and as for an
    absent variable on every other name. *)
Theorem filtered_object_agrees mat_file (names : list string) version (self_all : MatData) :
  names <> [] ->
  MatData_init mat_file None version = IO [h5py_call mat_file None] (Ok self_all) ->
  exists self_part,
    MatData_init mat_file (Some names) version =
      IO [h5py_call mat_file (Some names)] (Ok self_part) /\
    forall var,
      get self_part var =
      if bool_decide (var ∈ names) then get self_all var
      else Raise (Exn KeyError ("Variable '" +:+ var +:+ "' not found in data") None).
Proof using iter_set_perm.
  intros Hne Hall. destruct (init_h5py_only _ _ _ _ Hall) as (Hex & Hsel & Hload).
  destruct (load_h5py_unfiltered _ _ _ _ Hload) as (mat & d & _ & Hd & _).
  destruct (filter_step_dict names d Hne) as (d' & Hf & Hk & Hget).
  assert (Hpart : load_h5py mat_file (Some names) true true = Ok (PyDict d')).
  { rewrite load_h5py_split, Hload, Hd. exact Hf. }
  exists (mk_MatData (fspath mat_file) (PyDict d')).
  split; [now apply init_h5py_ok|].
  intros var.
  rewrite (get_dict (mk_MatData (fspath mat_file) (PyDict d')) d' var eq_refl).
  rewrite (get_dict self_all d var Hd).
  assert (Hin : In var (dict_keys d') <-> In var (dict_keys d) /\ var ∈ names).
  { rewrite Hk, iter_set_In, <- (list_elem_of_In names). reflexivity. }
  destruct (decide (var ∈ names)) as [Hn|Hn].
  - rewrite bool_decide_eq_true_2 by exact Hn.
    destruct (dict_get d var) as [v|] eqn:Hg.
    + rewrite Hget, Hg; [reflexivity|]. apply Hin. split; [|exact Hn].
      apply dict_get_In. eauto.
    + rewrite dict_get_None; [reflexivity|]. intros Hc. apply Hin in Hc as [Hc _].
      apply dict_get_In in Hc as [? Hc]. congruence.
  - rewrite bool_decide_eq_false_2 by exact Hn.
    rewrite dict_get_None; [reflexivity|]. intros Hc. now apply Hin in Hc as [_ ?].
Qed.

(** X13.  [__init__] calls each adapter at most once and the legacy adapter
    never before the hierarchical one: its calls are none (exactly when the
    existence check did not pass), the one adapter selected by the version,
    or, without a selected method, the hierarchical adapter followed or not
    by the legacy one. *)
Theorem init_trace_shape mat_file variable_names version :
  let calls := trace (MatData_init mat_file variable_names version) in
  (calls = [] <-> arg_exists mat_file <> Ok true) /\
  (forall f, select_load_method version = Some f -> arg_exists mat_file = Ok true ->
     calls = [mk_call f mat_file variable_names true true]) /\
  (select_load_method version = None -> arg_exists mat_file = Ok true ->
     calls = [h5py_call mat_file variable_names] \/
     calls = [h5py_call mat_file variable_names; scipy_call mat_file variable_names]).
Proof.
  simpl. destruct (arg_exists mat_file) as [[|]|e] eqn:Hex.
  - split; [|split].
    + destruct (select_load_method version) as [f|] eqn:Hsel.
      * rewrite (init_declared _ _ _ _ Hex Hsel). simpl. split; [discriminate|congruence].
      * rewrite (init_trial _ _ _ Hex Hsel).
        destruct (load_h5py mat_file variable_names true true) as [r|e]; simpl;
          [split; [discriminate|congruence]|].
        destruct (isinstance e OSError); simpl; split; (discriminate || congruence).
    + intros f Hsel _. now rewrite (init_declared _ _ _ _ Hex Hsel).
    + intros Hsel _. rewrite (init_trial _ _ _ Hex Hsel).
      destruct (load_h5py mat_file variable_names true true) as [r|e]; simpl; [now left|].
      destruct (isinstance e OSError); simpl; [now right|now left].
  - rewrite (init_missing _ _ _ Hex). simpl.
    split; [split; [discriminate|reflexivity]|]. split; intros; discriminate.
  - rewrite (init_no_exists _ _ _ _ Hex). simpl.
    split; [split; [discriminate|reflexivity]|]. split; intros; discriminate.
Qed.

(** X14.  [get_file] of a constructed object returns the path built from
    the argument of [__init__], whichever adapter loaded the data. *)
Theorem get_file_is_the_argument mat_file variable_names version (self : MatData) :
  outcome (MatData_init mat_file variable_names version) = Ok self ->
  get_file self = fspath mat_file.
Proof. intros H. now destruct (init_data _ _ _ _ H) as [Hf _]. Qed.

End Loader.

(** ** Concrete files and runs *)

(** A file system on which every path exists. *)
Definition fs_all (p : string) : bool := true.

(** [str(e)] of an exception built from one string. *)
Definition str_of_arg (e : exn) : string := exn_arg e.

(** A file that is not an HDF5 container. *)
Definition not_hdf5 (p : string) : exc (list (string * h5node)) :=
  Raise (Exn OSError "Unable to open file (file signature not found)" None).

(** A legacy file with the variable [x = 5]. *)
Definition legacy_x (p : string) (variable_names : option (list string))
    (squeeze_me simplify_cells : bool) : exc pydict :=
  Ok [("x", PyScalar (SInt 5%Z))].

(** [loadmat] on a file that is not a legacy file. *)
Definition legacy_unreadable (p : string) (variable_names : option (list string))
    (squeeze_me simplify_cells : bool) : exc pydict :=
  Raise (Exn ValueError "Unknown mat file type" None).

Definition ints (l : list Z) : list scalar := map SInt l.

(** An HDF5 file with the variables [x] (1x1), [c] (a 1x2 cell, stored as
    object references) and [y] (2x3), in this store order. *)
Definition hdf5_x_c_y (p : string) : exc (list (string * h5node)) :=
  Ok [("x", Dataset "i" [1; 1] (ints [5]%Z));
      ("c", Dataset "O" [2; 1] [SRef "#refs#/a"; SRef "#refs#/b"]);
      ("y", Dataset "i" [3; 2] (ints [1; 2; 3; 4; 5; 6]%Z))].

(** An HDF5 file whose root group also holds a committed datatype. *)
Definition hdf5_with_datatype (p : string) : exc (list (string * h5node)) :=
  Ok [("x", Dataset "i" [1; 1] (ints [5]%Z));
      ("t", OtherNode "<class 'h5py._hl.datatype.Datatype'>")].

Definition data_mat : path_arg := PathObj "data.mat".

(** One order in which a process can iterate [set(xs) & set(ys)]: the
    order of the names in a trie. *)
Definition hash_order (xs ys : list string) : list string :=
  elements (list_to_set xs ∩ list_to_set ys : gset string).

Lemma hash_order_perm (xs ys : list string) :
  hash_order xs ys ≡ₚ elements (list_to_set xs ∩ list_to_set ys : gset string).
Proof. reflexivity. Qed.

(** Witness of [no_version_other_failure_is_bare] (C1): the [TypeError] of
    [_mat_to_dict] on a committed datatype leaves [MatData(data_mat)]
    unwrapped, after the single call of the hierarchical adapter. *)
Lemma no_version_type_error_is_bare :
  MatData_init fs_all hdf5_with_datatype legacy_x str_of_arg hash_order data_mat None None =
  IO [h5py_call data_mat None]
     (Raise (Exn TypeError
               "Unsupported MATLAB object type: <class 'h5py._hl.datatype.Datatype'>" None)).
Proof.
  apply (no_version_other_failure_is_bare fs_all hdf5_with_datatype legacy_x str_of_arg
           hash_order data_mat None).
  - reflexivity.
  - vm_compute. reflexivity.
  - vm_compute. reflexivity.
Defined.

(** Counterexample to C2 as stated: the declared version 0.0 is at most
    7.2, yet the hierarchical adapter is called first and the legacy
    adapter only as its fallback. *)
Lemma version_zero_is_trial_and_fallback :
  num_le_7_2 (PyFloat (S754_zero false)) = true /\
  arg_exists fs_all data_mat = Ok true /\
  MatData_init fs_all not_hdf5 legacy_x str_of_arg hash_order data_mat None
    (Some (PyFloat (S754_zero false))) =
  IO [h5py_call data_mat None; scipy_call data_mat None]
     (Ok (mk_MatData "data.mat" (PyDict [("x", PyScalar (SInt 5%Z))]))).
Proof. repeat split. Qed.

(** Witness of [declared_version_dispatch] (C2): version 7 on a file the
    legacy reader cannot parse. *)
Lemma declared_version_7_witness :
  exists f,
    (num_le_7_2 (PyInt 7%Z) = true -> f = load_scipy_fn) /\
    (num_gt_7_2 (PyInt 7%Z) = true -> f = load_h5py_fn) /\
    trace (MatData_init fs_all not_hdf5 legacy_unreadable str_of_arg hash_order data_mat None
             (Some (PyInt 7%Z))) =
      [mk_call f data_mat None true true] /\
    (forall d, adapter_body not_hdf5 legacy_unreadable hash_order f data_mat None true true = Ok d ->
       outcome (MatData_init fs_all not_hdf5 legacy_unreadable str_of_arg hash_order data_mat None
                  (Some (PyInt 7%Z))) =
       Ok (mk_MatData (fspath data_mat) d)) /\
    (forall e, adapter_body not_hdf5 legacy_unreadable hash_order f data_mat None true true = Raise e ->
       isinstance e Exception = true ->
       outcome (MatData_init fs_all not_hdf5 legacy_unreadable str_of_arg hash_order data_mat None
                  (Some (PyInt 7%Z))) = Raise (load_error str_of_arg e) /\
       exn_cls (load_error str_of_arg e) = Exception /\
       exn_cause (load_error str_of_arg e) = Some e).
Proof.
  apply (declared_version_dispatch fs_all not_hdf5 legacy_unreadable str_of_arg hash_order
           data_mat None (PyInt 7%Z)); reflexivity.
Defined.

(** Counterexample to C3 as stated: a stored 2x1x3 dataset is returned, with
    squeeze on, as an array of shape (3, 2), not of the reversed stored shape
    (3, 1, 2). *)
Lemma squeezed_shape_is_not_the_reverse :
  exists data,
    1 < ndim (read_dataset "i" [2; 1; 3] (ints [1; 2; 3; 4; 5; 6]%Z)) /\
    _mat_to_dict true (Dataset "i" [2; 1; 3] (ints [1; 2; 3; 4; 5; 6]%Z)) = Ok (PyArray data) /\
    shape data = [3; 2] /\
    shape data <> rev [2; 1; 3].
Proof.
  eexists. split; [unfold ndim; simpl; lia|]. split; [vm_compute; reflexivity|].
  split; [reflexivity|]. simpl. discriminate.
Qed.

(** Witness of [dataset_transposed_then_squeezed] (C3) on the same
    dataset. *)
Lemma dataset_transposed_witness :
  length (ints [1; 2; 3; 4; 5; 6]%Z) = fold_right Nat.mul 1 [2; 1; 3] /\
  shape (dataset_array true "i" [2; 1; 3] (ints [1; 2; 3; 4; 5; 6]%Z)) =
    rev (squeezed_shape true [2; 1; 3]).
Proof.
  split; [reflexivity|].
  destruct (dataset_transposed_then_squeezed true "i" [2; 1; 3]
              (ints [1; 2; 3; 4; 5; 6]%Z) eq_refl) as [Hrev _].
  apply Hrev. unfold ndim. simpl. lia.
Defined.

(** Witness of [dataset_empty_shape_gives_scalar]: the 1x1 dataset of the
    MATLAB scalar 5. *)
Lemma scalar_dataset_witness :
  exists x, ints [5%Z] = [x] /\
    _mat_to_dict true (Dataset "i" [1; 1] (ints [5]%Z)) = Ok (PyScalar x).
Proof.
  apply (dataset_empty_shape_gives_scalar true "i" [1; 1] (ints [5]%Z)); reflexivity.
Defined.

(** An HDF5 file whose root group holds a string dataset without
    dimensions. *)
Definition hdf5_scalar_string (p : string) : exc (list (string * h5node)) :=
  Ok [("name", Dataset "O" [] [SStr "hello"])].

(** The failing input of C4 through the facade: the file cannot be
    loaded. *)
Lemma scalar_string_file_is_not_loaded :
  MatData_init fs_all hdf5_scalar_string legacy_x str_of_arg hash_order data_mat None None =
  IO [h5py_call data_mat None]
     (Raise (Exn AttributeError "'bytes' object has no attribute 'ndim'" None)).
Proof. vm_compute. reflexivity. Qed.

Definition refs6 : list scalar :=
  [SRef "#refs#/a"; SRef "#refs#/b"; SRef "#refs#/c";
   SRef "#refs#/d"; SRef "#refs#/e"; SRef "#refs#/f"].

(** Counterexample to C5 as stated: the 2x3 cell array (stored 3x2) is
    simplified to a list of 2 lists of 3 elements; the length of the list, 2,
    is not the array's element count, 6. *)
Lemma simplified_matrix_has_first_axis_length :
  exists a l,
    _mat_to_dict true (Dataset "O" [3; 2] refs6) = Ok (PyArray a) /\
    dtype_kind a = "O"%char /\
    size a = 6 /\
    _simplify (PyArray a) = Ok (PyList l) /\
    length l = 2 /\
    length l <> size a.
Proof.
  do 2 eexists. split; [vm_compute; reflexivity|]. split; [reflexivity|].
  split; [reflexivity|]. split; [vm_compute; reflexivity|].
  split; [reflexivity|]. simpl. unfold size. simpl. lia.
Qed.

(** Witness of [simplify_spec] (C5) on a well-formed 2x3 object array. *)
Lemma simplify_witness :
  exists items,
    Forall2 (fun i item => ndarray_getitem (read_dataset "O" [2; 3] refs6) i = Ok item)
            (seq 0 2) items /\
    (forall l, _simplify (PyArray (read_dataset "O" [2; 3] refs6)) = Ok (PyList l) <->
               Forall2 (fun item y => _simplify item = Ok y) items l) /\
    (forall r, _simplify (PyArray (read_dataset "O" [2; 3] refs6)) = Ok r ->
               exists l, r = PyList l /\ length l = 2) /\
    ([3] = [] -> 2 = size (read_dataset "O" [2; 3] refs6)).
Proof.
  apply (proj1 simplify_spec (read_dataset "O" [2; 3] refs6) 2 [3]).
  - reflexivity.
  - apply read_dataset_wf. reflexivity.
  - reflexivity.
Defined.

(** Witness of [load_h5py_filter] (C6): the names [y], [missing] and [x]
    requested from the file that stores [x], [c], [y]. *)
Lemma load_h5py_filter_witness :
  ["y"; "missing"; "x"] <> [] /\
  exists d',
    load_h5py hdf5_x_c_y hash_order data_mat (Some ["y"; "missing"; "x"]) true true =
      Ok (PyDict d') /\
    forall k, In k (dict_keys d') <-> In k ["x"; "c"; "y"] /\ In k ["y"; "missing"; "x"].
Proof.
  assert (Hne : ["y"; "missing"; "x"] <> []) by discriminate.
  split; [exact Hne|].
  destruct (load_h5py_filter hdf5_x_c_y hash_order hash_order_perm
              data_mat ["y"; "missing"; "x"] true true Hne) as (_ & Hok & _).
  assert (Hr : exists r, load_h5py hdf5_x_c_y hash_order data_mat None true true = Ok r)
    by (eexists; vm_compute; reflexivity).
  destruct Hr as [r Hr].
  destruct (Hok r Hr) as (mat & d & d' & Hmat & _ & _ & Hload & _ & Hkeys & _).
  injection Hmat as <-. exists d'. split; [exact Hload|exact Hkeys].
Defined.

(** The object constructed from the legacy file with [x = 5]. *)
Definition legacy_self : MatData :=
  mk_MatData "data.mat" (PyDict [("x", PyScalar (SInt 5%Z))]).

(** Witness of [get_spec] (C8). *)
Lemma get_witness :
  exists d, data legacy_self = PyDict d /\
    forall var,
      (dict_get d var = None ->
         get legacy_self var =
         Raise (Exn KeyError ("Variable '" +:+ var +:+ "' not found in data") None)) /\
      (forall v, dict_get d var = Some v -> get legacy_self var = Ok v).
Proof.
  apply (get_spec fs_all not_hdf5 legacy_x str_of_arg hash_order data_mat None None legacy_self).
  reflexivity.
Defined.

(** Counterexample to C9 as stated: the file stores [x] before [y]; loaded
    through the hierarchical adapter with both names requested, under the
    set order [hash_order], the keys are listed [y] first. *)
Lemma filtered_keys_not_in_store_order :
  exists self,
    MatData_init fs_all hdf5_x_c_y legacy_x str_of_arg hash_order data_mat
      (Some ["x"; "y"]) None =
      IO [h5py_call data_mat (Some ["x"; "y"])] (Ok self) /\
    requested_in_store_order ["x"; "y"]
      [("x", Dataset "i" [1; 1] (ints [5]%Z));
       ("c", Dataset "O" [2; 1] [SRef "#refs#/a"; SRef "#refs#/b"]);
       ("y", Dataset "i" [3; 2] (ints [1; 2; 3; 4; 5; 6]%Z))] = ["x"; "y"] /\
    get_keys self = Ok ["y"; "x"].
Proof.
  eexists. split; [vm_compute; reflexivity|]. split; vm_compute; reflexivity.
Qed.

(** Witness of [get_keys_order] (C9) on the same run. *)
Lemma get_keys_order_witness :
  exists self,
    outcome (MatData_init fs_all hdf5_x_c_y legacy_x str_of_arg hash_order data_mat
               (Some ["x"; "y"]) None) = Ok self /\
    (exists d, data self = PyDict d /\ get_keys self = Ok (dict_keys d)) /\
    exists keys,
      get_keys self = Ok keys /\
      keys = hash_order ["x"; "c"; "y"] ["x"; "y"] /\
      keys ≡ₚ ["x"; "y"].
Proof.
  destruct (outcome (MatData_init fs_all hdf5_x_c_y legacy_x str_of_arg hash_order data_mat
                       (Some ["x"; "y"]) None)) as [self|e] eqn:Hself;
    [|vm_compute in Hself; discriminate].
  exists self. split; [reflexivity|].
  destruct (get_keys_order fs_all hdf5_x_c_y legacy_x str_of_arg hash_order
              hash_order_perm data_mat (Some ["x"; "y"]) None self Hself)
    as [Hdict Hkeys].
  split; [exact Hdict|].
  refine (Hkeys _ _ eq_refl _).
  - vm_compute. reflexivity.
  - apply NoDup_ListNoDup. apply (bool_decide_unpack _). vm_compute. exact I.
Defined.

(** Witness of [no_version_fallback]: a legacy file opened without a
    version is read by the legacy adapter after the hierarchical adapter
    failed on its format. *)
Lemma no_version_fallback_witness :
  trace (MatData_init fs_all not_hdf5 legacy_x str_of_arg hash_order data_mat None None) =
    [h5py_call data_mat None; scipy_call data_mat None] /\
  outcome (MatData_init fs_all not_hdf5 legacy_x str_of_arg hash_order data_mat None None) =
    Ok legacy_self.
Proof.
  destruct (no_version_fallback fs_all not_hdf5 legacy_x str_of_arg hash_order data_mat None
              eq_refl) as [_ H].
  destruct (H _ eq_refl eq_refl) as (Htrace & Hok & _).
  split; [exact Htrace|]. apply Hok. reflexivity.
Defined.

(** A file system without any file. *)
Definition fs_none (p : string) : bool := false.

(** Witness of [init_missing_path]. *)
Lemma init_missing_path_witness :
  MatData_init fs_none hdf5_x_c_y legacy_x str_of_arg hash_order (PathObj "missing.mat")
    None None =
  IO [] (Raise (Exn FileNotFoundError "File 'missing.mat' not found" None)).
Proof.
  apply (init_missing_path fs_none hdf5_x_c_y legacy_x str_of_arg hash_order "missing.mat"
           None None).
  reflexivity.
Defined.





(** Witness of [dataset_array_size] (X6). *)
Lemma dataset_array_size_witness :
  size (dataset_array true "i" [2; 1; 3] (ints [1; 2; 3; 4; 5; 6]%Z)) =
  length (ints [1; 2; 3; 4; 5; 6]%Z).
Proof.
  apply (dataset_array_size true "i" [2; 1; 3] (ints [1; 2; 3; 4; 5; 6]%Z)). reflexivity.
Defined.

(** The 2x3 cell array of [refs6], simplified. *)
Definition refs6_lists : pyobj :=
  PyList [PyList (map PyScalar [SRef "#refs#/a"; SRef "#refs#/b"; SRef "#refs#/c"]);
          PyList (map PyScalar [SRef "#refs#/d"; SRef "#refs#/e"; SRef "#refs#/f"])].

(** Witness of [simplify_idempotent] (X7). *)
Lemma simplify_idempotent_witness : _simplify refs6_lists = Ok refs6_lists.
Proof.
  apply (simplify_idempotent (PyArray (read_dataset "O" [2; 3] refs6)) refs6_lists).
  vm_compute. reflexivity.
Defined.

(** Witness of [simplify_no_cells_unchanged] (X8): a struct with a numeric
    array in a nested struct. *)
Lemma simplify_no_cells_witness :
  _simplify (PyDict [("x", PyScalar (SInt 5%Z));
                     ("s", PyDict [("y", PyArray (read_dataset "i" [2] (ints [1; 2]%Z)))])]) =
  Ok (PyDict [("x", PyScalar (SInt 5%Z));
              ("s", PyDict [("y", PyArray (read_dataset "i" [2] (ints [1; 2]%Z)))])]).
Proof.
  apply (simplify_no_cells_unchanged
           (PyDict [("x", PyScalar (SInt 5%Z));
                    ("s", PyDict [("y", PyArray (read_dataset "i" [2] (ints [1; 2]%Z)))])])).
  vm_compute. reflexivity.
Defined.


(** Witness of [load_h5py_succeeds] (X10): one present and one absent name
    requested. *)
Lemma load_h5py_succeeds_witness :
  exists d,
    load_h5py hdf5_x_c_y hash_order data_mat (Some ["y"; "missing"]) true true =
      Ok (PyDict d) /\
    List.NoDup (dict_keys d) /\
    (forall k, In k (dict_keys d) -> In k ["x"; "c"; "y"]) /\
    (true = true -> forallb (fun kv => cell_free (snd kv)) d = true).
Proof.
  apply (load_h5py_succeeds hdf5_x_c_y hash_order hash_order_perm
           data_mat (Some ["y"; "missing"]) true true
           [("x", Dataset "i" [1; 1] (ints [5]%Z));
            ("c", Dataset "O" [2; 1] [SRef "#refs#/a"; SRef "#refs#/b"]);
            ("y", Dataset "i" [3; 2] (ints [1; 2; 3; 4; 5; 6]%Z))]);
    reflexivity.
Defined.

(** Witness of [get_succeeds_iff_listed] (X11). *)
Lemma get_succeeds_iff_listed_witness :
  exists keys, get_keys legacy_self = Ok keys /\
    forall var, In var keys <-> exists v, get legacy_self var = Ok v.
Proof.
  apply (get_succeeds_iff_listed fs_all not_hdf5 legacy_x str_of_arg hash_order
           data_mat None None legacy_self).
  reflexivity.
Defined.

(** Witness of [filtered_object_agrees] (X12). *)
Lemma filtered_object_agrees_witness :
  exists self_all self_part,
    MatData_init fs_all hdf5_x_c_y legacy_x str_of_arg hash_order data_mat None None =
      IO [h5py_call data_mat None] (Ok self_all) /\
    MatData_init fs_all hdf5_x_c_y legacy_x str_of_arg hash_order data_mat
      (Some ["y"; "missing"]) None =
      IO [h5py_call data_mat (Some ["y"; "missing"])] (Ok self_part) /\
    get self_part "y" = get self_all "y".
Proof.
  assert (Hall : exists self_all,
    MatData_init fs_all hdf5_x_c_y legacy_x str_of_arg hash_order data_mat None None =
      IO [h5py_call data_mat None] (Ok self_all))
    by (eexists; vm_compute; reflexivity).
  destruct Hall as [self_all Hall].
  destruct (filtered_object_agrees fs_all hdf5_x_c_y legacy_x str_of_arg hash_order
              hash_order_perm data_mat ["y"; "missing"] None self_all)
    as (self_part & Hpart & Hget); [discriminate|exact Hall|].
  exists self_all, self_part. split; [exact Hall|]. split; [exact Hpart|].
  rewrite (Hget "y"). rewrite bool_decide_eq_true_2; [reflexivity|]. constructor.
Defined.

(** Witness of [get_file_is_the_argument] (X14). *)
Lemma get_file_witness : get_file legacy_self = fspath data_mat.
Proof.
  apply (get_file_is_the_argument fs_all not_hdf5 legacy_x str_of_arg hash_order
           data_mat None None legacy_self).
  reflexivity.
Defined.
